(** * Tooltip: a shallow embedding of [src/components/Tooltip/Tooltip.js]

    The component is modelled as a record of instance fields together with
    the handlers of the class, written in a small state-and-log monad.  The
    DOM is a finite tree of nodes, JavaScript numbers are binary64 floats,
    and the debounced hover handler is a pending call with a countdown. *)

From Stdlib Require Import ZArith List String Ascii Bool Lia Floats.
Import ListNotations.

Local Open Scope string_scope.
Local Open Scope list_scope.
Local Set Warnings "-register-all".

(** ** The DOM as the component sees it *)

Module Dom.

(** The value of [getBoundingClientRect()]; the component only stores it. *)
Record DOMRect := mkRect
  { rect_top : float; rect_left : float; rect_width : float; rect_height : float }.

(** A node of the document.  Nodes are identified by [node_id] (object
    identity). *)
Inductive Node : Type :=
  MkNode (node_id : nat) (rect : DOMRect) (kids : list Node).

Definition node_id (n : Node) : nat := let '(MkNode i _ _) := n in i.
Definition getBoundingClientRect (n : Node) : DOMRect := let '(MkNode _ r _) := n in r.
Definition childNodes (n : Node) : list Node := let '(MkNode _ _ ks) := n in ks.

(** The identities of a node and of all its descendants. *)
Fixpoint subtree_ids (n : Node) : list nat :=
  match n with
  | MkNode i _ ks => i :: flat_map subtree_ids ks
  end.

(** [Node.prototype.contains]: a node contains itself and its descendants. *)
Definition contains (e t : Node) : bool :=
  existsb (Nat.eqb (node_id t)) (subtree_ids e).

(** [t] is [e] or a descendant of [e], as a relation on the tree. *)
Inductive Within : Node -> Node -> Prop :=
| within_self : forall e t, node_id t = node_id e -> Within e t
| within_kid : forall e k t, In k (childNodes e) -> Within k t -> Within e t.

End Dom.
Import Dom.

(** ** Events *)

(** The DOM event types that [render] wires to [handleMouse]. *)
Inductive EventType := Click | MouseOver | MouseOut | Focus | Blur | ContextMenu.

(** The strings ['over'], ['out'] and ['click'] of [handleMouse]. *)
Inductive HoverState := over | out | click.

Record MouseEvent := mkMouseEvent
  { type : EventType;
    relatedTarget : option Node;   (* [None] is [null] *)
    target : option Node }.

(** A key as [handleKeyPress] computes it: [evt.key || evt.which]. *)
Inductive JsKey :=
| KUndefined
| KString (s : string)
| KNumber (n : Z).

Record KeyboardEvent := mkKeyboardEvent
  { key : option string;           (* [None] is [undefined] *)
    which : option Z }.

(** ** Rendered output *)

Inductive HandlerRef :=
| H_handleMouse | H_handleKeyPress | H_handleClickOutside
| H_getTarget | H_getMenuOffset | H_setTriggerEl | H_setTooltipEl.

Inductive Direction := DIRECTION_LEFT | DIRECTION_TOP | DIRECTION_RIGHT | DIRECTION_BOTTOM.

Inductive MenuOffsetProp :=
| OffsetShape (top left : option float)
| OffsetDefault                     (* the function [getMenuOffset] *)
| OffsetFunc (name : string).

Inductive IconProp := IconInfoGlyph | IconGiven (viewBox : string).

Inductive AttrVal :=
| AStr (s : string)
| ABool (b : bool)
| ANum (n : Z)
| AUndefined
| AHandler (h : HandlerRef)
| ADirection (d : Direction)
| ARect (r : option DOMRect)
| AOffset (o : MenuOffsetProp)
| AIcon (i : option IconProp).

(** A React element tree.  [VNothing] stands for [false], [null] and
    [undefined], which React renders as nothing. *)
Inductive VNode :=
| VElement (tag : string) (attrs : list (string * AttrVal)) (kids : list VNode)
| VText (s : string)
| VNothing.

(** ** Props and state *)

Module Props.

(** The props as the parent passes them; [None] is a prop left out. *)
Record user := mkUser
  { u_open : option bool;
    u_direction : option Direction;
    u_showIcon : option bool;
    u_iconDescription : option string;
    u_iconTitle : option string;
    u_triggerText : option VNode;
    u_menuOffset : option MenuOffsetProp;
    u_triggerId : option string;
    u_tooltipId : option string;
    u_children : list VNode;
    u_className : option string;
    u_triggerClassName : option string;
    u_icon : option IconProp;
    u_iconName : option string;
    u_clickToOpen : bool;            (* only tested for truth *)
    u_tabIndex : option Z;
    u_other : list (string * AttrVal) }.

(** [this.props], after React has filled in [defaultProps]. *)
Record t := mk
  { open : bool;
    direction : Direction;
    showIcon : bool;
    iconDescription : string;
    iconTitle : string;
    triggerText : VNode;
    menuOffset : MenuOffsetProp;
    triggerId : option string;
    tooltipId : option string;
    children : list VNode;
    className : option string;
    triggerClassName : option string;
    icon : option IconProp;
    iconName : option string;
    clickToOpen : bool;
    tabIndex : option Z;
    other : list (string * AttrVal) }.

Definition or_default {A} (d : A) (o : option A) : A :=
  match o with Some a => a | None => d end.

(** [static defaultProps]. *)
Definition withDefaults (u : user) : t :=
  {| open := or_default false (u_open u);
     direction := or_default DIRECTION_BOTTOM (u_direction u);
     showIcon := or_default true (u_showIcon u);
     iconDescription := or_default "tooltip" (u_iconDescription u);
     iconTitle := or_default "" (u_iconTitle u);
     triggerText := or_default (VText "Provide triggerText") (u_triggerText u);
     menuOffset := or_default OffsetDefault (u_menuOffset u);
     triggerId := u_triggerId u;
     tooltipId := u_tooltipId u;
     children := u_children u;
     className := u_className u;
     triggerClassName := u_triggerClassName u;
     icon := u_icon u;
     iconName := u_iconName u;
     clickToOpen := u_clickToOpen u;
     tabIndex := u_tabIndex u;
     other := u_other u |}.

End Props.

Module State.

(** [this.state]; [None] is a key that is [undefined]. *)
Record t := mk
  { open : option bool;
    prevOpen : option bool;
    triggerPosition : option DOMRect }.

(** [state = {}]. *)
Definition initial : t :=
  {| open := None; prevOpen := None; triggerPosition := None |}.

(** One key of the object handed to [setState]. *)
Inductive update :=
| set_open (b : bool)
| set_prevOpen (b : bool)
| set_triggerPosition (r : DOMRect).

Definition assign (s : t) (u : update) : t :=
  match u with
  | set_open b => {| open := Some b; prevOpen := prevOpen s; triggerPosition := triggerPosition s |}
  | set_prevOpen b => {| open := open s; prevOpen := Some b; triggerPosition := triggerPosition s |}
  | set_triggerPosition r => {| open := open s; prevOpen := prevOpen s; triggerPosition := Some r |}
  end.

(** The shallow merge React applies to a partial state. *)
Definition merge (s : t) (partial : list update) : t := fold_left assign partial s.

(** JavaScript truthiness of [state.open]. *)
Definition truthy (o : option bool) : bool :=
  match o with Some true => true | _ => false end.

End State.

(** ** The component instance *)

(** A pending call of the debounced hover handler: the arguments of the
    last call and the milliseconds left before it runs. *)
Record PendingHover := mkPending
  { pending_state : HoverState;
    pending_relatedTarget : option Node;
    pending_ms : nat }.

(** What the ref of the trigger holds.  With [showIcon] it is the icon's
    [svg], and an [SVGElement] in IE11 has no [contains] method. *)
Record TriggerElement := mkTrigger
  { trigger_node : Node;
    trigger_has_contains : bool }.

Record Instance := mkInstance
  { props : Props.t;
    state : State.t;
    _hasContextMenu : bool;
    _tooltipEl : option Node;        (* the [div] of the floating menu, or [null] *)
    triggerEl : option TriggerElement;
    triggerId : option string;       (* [this.triggerId], set by [render] *)
    tooltipId : option string;       (* [this.tooltipId], set by [render] *)
    hoverTimer : option PendingHover (* the timer inside [_debouncedHandleHover] *) }.

(** Calls a handler makes on its event or on the component, in order. *)
Inductive Call := stopPropagation | getTriggerPosition_called.

(** Handlers run in a state monad over the instance that also logs calls. *)
Definition M (A : Type) : Type := Instance -> A * Instance * list Call.

Definition ret {A} (a : A) : M A := fun i => (a, i, []).

Definition bind {A B} (m : M A) (k : A -> M B) : M B :=
  fun i =>
    let '(a, i1, l1) := m i in
    let '(b, i2, l2) := k a i1 in
    (b, i2, l1 ++ l2).

Declare Scope handler_scope.
Delimit Scope handler_scope with handler.
Notation "x <- m ;; k" := (bind m (fun x => k))
  (at level 61, m at next level, right associativity) : handler_scope.
Notation "m ;; k" := (bind m (fun _ => k))
  (at level 61, right associativity) : handler_scope.
Local Open Scope handler_scope.

Definition this : M Instance := fun i => (i, i, []).
Definition put (i : Instance) : M unit := fun _ => (tt, i, []).
Definition call (c : Call) : M unit := fun i => (tt, i, [c]).
Definition when (b : bool) (m : M unit) : M unit := if b then m else ret tt.

(** [this.setState(partial)].  Every handler below reads [this.state]
    before its first [setState], so merging at once and merging at the end
    of the handler give the same state. *)
Definition setState (partial : list State.update) : M unit :=
  fun i =>
    (tt,
     {| props := props i; state := State.merge (state i) partial;
        _hasContextMenu := _hasContextMenu i; _tooltipEl := _tooltipEl i;
        triggerEl := triggerEl i; triggerId := triggerId i; tooltipId := tooltipId i;
        hoverTimer := hoverTimer i |},
     []).

Definition set_hasContextMenu (b : bool) : M unit :=
  fun i =>
    (tt,
     {| props := props i; state := state i;
        _hasContextMenu := b; _tooltipEl := _tooltipEl i;
        triggerEl := triggerEl i; triggerId := triggerId i; tooltipId := tooltipId i;
        hoverTimer := hoverTimer i |},
     []).

Definition set_hoverTimer (t : option PendingHover) : M unit :=
  fun i =>
    (tt,
     {| props := props i; state := state i;
        _hasContextMenu := _hasContextMenu i; _tooltipEl := _tooltipEl i;
        triggerEl := triggerEl i; triggerId := triggerId i; tooltipId := tooltipId i;
        hoverTimer := t |},
     []).

Definition exec {A} (m : M A) (i : Instance) : Instance := snd (fst (m i)).
Definition calls {A} (m : M A) (i : Instance) : list Call := snd (m i).

(** ** The methods of the class *)

(** [static getDerivedStateFromProps({ open }, state)]; [None] is [null]. *)
Definition getDerivedStateFromProps (p : Props.t) (s : State.t)
  : option (list State.update) :=
  let prevOpen := State.prevOpen s in
  match prevOpen with
  | Some b =>
      if Bool.eqb b (Props.open p) then None
      else Some [State.set_open (Props.open p); State.set_prevOpen (Props.open p)]
  | None => Some [State.set_open (Props.open p); State.set_prevOpen (Props.open p)]
  end.

Definition getTriggerPosition : M unit :=
  call getTriggerPosition_called ;;
  i <- this ;;
  match triggerEl i with
  | Some el =>
      let triggerPosition := getBoundingClientRect (trigger_node el) in
      setState [State.set_triggerPosition triggerPosition]
  | None => ret tt
  end.

(** [shouldPreventClose] of [_handleHover]. *)
Definition hover_shouldPreventClose (i : Instance) (relatedTarget : option Node) : bool :=
  match relatedTarget with
  | None => false
  | Some rt =>
      match triggerEl i with
      | Some el => trigger_has_contains el && contains (trigger_node el) rt
      | None => false
      end
      || match _tooltipEl i with
         | Some el => contains el rt
         | None => false
         end
  end.

Definition _handleHover (st : HoverState) (relatedTarget : option Node) : M unit :=
  match st with
  | over =>
      getTriggerPosition ;;
      setState [State.set_open true]
  | _ =>
      i <- this ;;
      let shouldPreventClose := hover_shouldPreventClose i relatedTarget in
      when (negb shouldPreventClose) (setState [State.set_open false])
  end.

(** [debounce(this._handleHover, 200)] of lodash, with its default options:
    a call does not run the handler, it (re)starts a 200ms timer and keeps
    the arguments of the latest call. *)
Definition debounce_wait : nat := 200.

Definition _debouncedHandleHover (st : HoverState) (relatedTarget : option Node) : M unit :=
  set_hoverTimer (Some (mkPending st relatedTarget debounce_wait)).

(** [ms] milliseconds pass with no event: a timer that runs out calls the
    handler with the kept arguments. *)
Definition elapse (ms : nat) : M unit :=
  i <- this ;;
  match hoverTimer i with
  | None => ret tt
  | Some p =>
      if (pending_ms p <=? ms)%nat then
        set_hoverTimer None ;;
        _handleHover (pending_state p) (pending_relatedTarget p)
      else
        set_hoverTimer
          (Some (mkPending (pending_state p) (pending_relatedTarget p) (pending_ms p - ms)))
  end.

(** The object literal of [handleMouse] indexed by [evt.type]; [None] is
    [undefined]. *)
Definition hover_state_of (t : EventType) : option HoverState :=
  match t with
  | MouseOver => Some over
  | MouseOut => Some out
  | Focus => Some over
  | Blur => Some out
  | Click => Some click
  | ContextMenu => None
  end.

Definition is_contextmenu (t : EventType) : bool :=
  match t with ContextMenu => true | _ => false end.

Definition is_out (s : HoverState) : bool :=
  match s with out => true | _ => false end.

Definition handleMouse (evt : MouseEvent) : M unit :=
  let st := hover_state_of (type evt) in
  i <- this ;;
  let hadContextMenu := _hasContextMenu i in
  set_hasContextMenu (is_contextmenu (type evt)) ;;
  if Props.clickToOpen (props i) then
    match st with
    | Some click =>
        call stopPropagation ;;
        i <- this ;;
        let shouldOpen := negb (State.truthy (State.open (state i))) in
        when shouldOpen getTriggerPosition ;;
        setState [State.set_open shouldOpen]
    | _ => ret tt
    end
  else
    match st with
    | Some s =>
        if negb (is_out s) || negb hadContextMenu
        then _debouncedHandleHover s (relatedTarget evt)
        else ret tt
    | None => ret tt
    end.

(** [handleClickOutside]; the event itself may be missing. *)
Definition handleClickOutside (evt : option MouseEvent) : M unit :=
  i <- this ;;
  let shouldPreventClose :=
    match evt with
    | Some e =>
        match target e, _tooltipEl i with
        | Some t, Some el => contains el t
        | _, _ => false
        end
    | None => false
    end in
  when (negb shouldPreventClose) (setState [State.set_open false]).

(** [evt.key || evt.which]: the empty string is falsy. *)
Definition key_of (evt : KeyboardEvent) : JsKey :=
  let which_val := match which evt with Some n => KNumber n | None => KUndefined end in
  match key evt with
  | Some "" => which_val
  | Some s => KString s
  | None => which_val
  end.

Definition is_toggle_key (k : JsKey) : bool :=
  match k with
  | KString s => String.eqb s "Enter" || String.eqb s " "
  | KNumber n => Z.eqb n 13%Z || Z.eqb n 32%Z
  | KUndefined => false
  end.

Definition handleKeyPress (evt : KeyboardEvent) : M unit :=
  let key := key_of evt in
  if is_toggle_key key then
    call stopPropagation ;;
    i <- this ;;
    setState [State.set_open (negb (State.truthy (State.open (state i))))]
  else ret tt.

(** ** [matches], [closest] and [_getTarget] *)

(** What the module and [_getTarget] read of the page the component runs
    in.  A node is given with the chain of its [parentNode]s and with the
    properties of it that are functions: for each its name and, per
    selector, whether the call answers something truthy. *)
Record Page := mkPage
  { Element_prototype : option (list string);
      (* the function-valued names of [Element.prototype]; [None] when
         there is no [Element] *)
    document_body : Node;                         (* [document.body] *)
    ownerDocument : Node -> Node;
    parentChain : Node -> list Node;
      (* [parentNode], its [parentNode], and so on until [null] *)
    methods : Node -> list (string * (string -> bool)) }.

(** The value of the constant [matchesFuncName]. *)
Inductive FuncName :=
| fn_false                (* [typeof Element] is ['undefined'] *)
| fn_undefined            (* the filtered array is empty *)
| fn_name (name : string).

Definition candidate_names : list string :=
  ["matches"; "webkitMatchesSelector"; "msMatchesSelector"].

Definition is_function_in (names : list string) (name : string) : bool :=
  existsb (String.eqb name) names.

Definition matchesFuncName (page : Page) : FuncName :=
  match Element_prototype page with
  | None => fn_false
  | Some proto =>
      match filter (is_function_in proto) candidate_names with
      | name :: _ => fn_name name
      | [] => fn_undefined
      end
  end.

(** The property key a value of [matchesFuncName] indexes with. *)
Definition property_key (f : FuncName) : string :=
  match f with
  | fn_false => "false"
  | fn_undefined => "undefined"
  | fn_name name => name
  end.

Fixpoint method_named (name : string) (ms : list (string * (string -> bool)))
  : option (string -> bool) :=
  match ms with
  | [] => None
  | (n, f) :: ms' => if String.eqb n name then Some f else method_named name ms'
  end.

(** [matches(elem, selector)]. *)
Definition matches (page : Page) (elem : Node) (selector : string) : bool :=
  match method_named (property_key (matchesFuncName page)) (methods page elem) with
  | Some f => f selector
  | None => false
  end.

(** The loop of [closest] over the nodes still to visit. *)
Fixpoint closest_loop (page : Page) (doc : Node) (selector : string)
  (chain : list Node) : option Node :=
  match chain with
  | [] => None
  | traverse :: up =>
      if Nat.eqb (node_id traverse) (node_id doc) then None
      else if matches page traverse selector then Some traverse
      else closest_loop page doc selector up
  end.

(** [closest(elem, selector)]; [None] is [null]. *)
Definition closest (page : Page) (elem : Node) (selector : string) : option Node :=
  let doc := ownerDocument page elem in
  closest_loop page doc selector (elem :: parentChain page elem).

(** [_getTarget()]. *)
Definition _getTarget (page : Page) (i : Instance) : Node :=
  match triggerEl i with
  | Some el =>
      match closest page (trigger_node el) "[data-floating-menu-container]" with
      | Some container => container
      | None => document_body page
      end
  | None => document_body page
  end.

(** ** [render] *)

(** [settings.prefix] of the carbon-components package. *)
Definition prefix : string := "bx".

(** [classNames(...)] of the classnames package: the truthy names, joined
    by a space. *)
Definition classNames (names : list (option string)) : string :=
  String.concat " "
    (flat_map (fun n => match n with
                        | Some "" => []
                        | Some s => [s]
                        | None => []
                        end) names).

Definition set_triggerId (id : string) : M unit :=
  fun i =>
    (tt,
     {| props := props i; state := state i;
        _hasContextMenu := _hasContextMenu i; _tooltipEl := _tooltipEl i;
        triggerEl := triggerEl i; triggerId := Some id; tooltipId := tooltipId i;
        hoverTimer := hoverTimer i |},
     []).

Definition set_tooltipId (id : string) : M unit :=
  fun i =>
    (tt,
     {| props := props i; state := state i;
        _hasContextMenu := _hasContextMenu i; _tooltipEl := _tooltipEl i;
        triggerEl := triggerEl i; triggerId := triggerId i; tooltipId := Some id;
        hoverTimer := hoverTimer i |},
     []).

Definition attr_of_open (o : option bool) : AttrVal :=
  match o with Some b => ABool b | None => AUndefined end.

(** The four hover and focus listeners that the trigger and the panel share. *)
Definition hover_listeners : list (string * AttrVal) :=
  [ ("onMouseOver", AHandler H_handleMouse);
    ("onMouseOut", AHandler H_handleMouse);
    ("onFocus", AHandler H_handleMouse);
    ("onBlur", AHandler H_handleMouse) ].

(** The props that the destructuring in [render] takes out by name. *)
Definition destructured : list string :=
  [ "triggerId"; "tooltipId"; "children"; "className"; "triggerClassName";
    "direction"; "triggerText"; "showIcon"; "icon"; "iconName"; "iconTitle";
    "iconDescription"; "menuOffset"; "clickToOpen"; "tabIndex" ].

Definition is_destructured (name : string) : bool :=
  existsb (String.eqb name) destructured.

(** [...other]: every prop that is not taken out by name.  [open] is not,
    so it is among them; a key of [Props.other] that repeats a named prop
    stands for no prop of its own and is dropped. *)
Definition rest_props (p : Props.t) : list (string * AttrVal) :=
  ("open", ABool (Props.open p))
  :: filter (fun kv => negb (is_destructured (fst kv) || String.eqb (fst kv) "open"))
       (Props.other p).

(** [render()].  [rnd1] and [rnd2] are what
    [Math.random().toString(36).substr(2)] gives when an id has to be made.
    Attributes are listed in source order; a later one of the same name
    wins. *)
Definition render (rnd1 rnd2 : string) : M VNode :=
  i <- this ;;
  let p := props i in
  triggerId <-
    match Props.triggerId p with
    | Some id => ret id
    | None =>
        let id := match triggerId i with
                  | Some id => id
                  | None => ("__carbon-tooltip-trigger_" ++ rnd1)%string
                  end in
        set_triggerId id ;; ret id
    end ;;
  i <- this ;;
  tooltipId <-
    match Props.tooltipId p with
    | Some id => ret id
    | None =>
        let id := match tooltipId i with
                  | Some id => id
                  | None => ("__carbon-tooltip_" ++ rnd2)%string
                  end in
        set_tooltipId id ;; ret id
    end ;;
  i <- this ;;
  let tabIndex := Props.or_default 0%Z (Props.tabIndex p) in
  let other := rest_props p in
  let open := State.open (state i) in
  let tooltipClasses :=
    classNames [ Some (prefix ++ "--tooltip")%string;
                 if State.truthy open then Some (prefix ++ "--tooltip--shown")%string else None;
                 Props.className p ] in
  let triggerClasses :=
    classNames [ Some (prefix ++ "--tooltip__trigger")%string; Props.triggerClassName p ] in
  let ariaOwnsProps :=
    if negb (State.truthy open) then [] else [("aria-owns", AStr tooltipId)] in
  let no_iconName :=
    match Props.iconName p with Some "" => true | Some _ => false | None => true end in
  let trigger :=
    if Props.showIcon p then
      VElement "div" [("className", AStr triggerClasses)]
        [ Props.triggerText p;
          VElement "div"
            ([ ("id", AStr triggerId);
               ("role", AStr "button");
               ("tabIndex", ANum tabIndex);
               ("onClick", AHandler H_handleMouse);
               ("onKeyDown", AHandler H_handleKeyPress) ]
             ++ hover_listeners
             ++ [ ("aria-haspopup", AStr "true");
                  ("aria-expanded", attr_of_open open) ]
             ++ ariaOwnsProps)
            [ VElement "Icon"
                [ ("icon", AIcon (match Props.icon p with
                                  | None => if no_iconName then Some IconInfoGlyph else None
                                  | Some ic => Some ic
                                  end));
                  ("name", match Props.iconName p with Some n => AStr n | None => AUndefined end);
                  ("description", AStr (Props.iconDescription p));
                  ("iconTitle", AStr (Props.iconTitle p));
                  ("iconRef", AHandler H_setTriggerEl) ]
                [] ] ]
    else
      VElement "div"
        ([ ("tabIndex", ANum tabIndex);
           ("id", AStr triggerId);
           ("className", AStr triggerClasses);
           ("ref", AHandler H_setTriggerEl) ]
         ++ hover_listeners
         ++ [ ("aria-haspopup", AStr "true");
              ("aria-expanded", attr_of_open open) ]
         ++ ariaOwnsProps
         ++ [ ("role", AStr "tooltip") ])
        [ Props.triggerText p ] in
  let panel :=
    if State.truthy open then
      VElement "FloatingMenu"
        [ ("target", AHandler H_getTarget);
          ("menuPosition", ARect (State.triggerPosition (state i)));
          ("menuDirection", ADirection (Props.direction p));
          ("menuOffset", AOffset (Props.menuOffset p));
          ("menuRef", AHandler H_setTooltipEl) ]
        [ VElement "div"
            ([ ("id", AStr tooltipId);
               ("className", AStr tooltipClasses) ]
             ++ other
             ++ [ ("data-floating-menu-direction", ADirection (Props.direction p));
                  ("aria-labelledby", AStr triggerId) ]
             ++ hover_listeners
             ++ [ ("onContextMenu", AHandler H_handleMouse) ])
            (VElement "span" [("className", AStr (prefix ++ "--tooltip__caret")%string)] []
             :: Props.children p) ]
    else VNothing in
  ret (VElement "React.Fragment" []
         [ VElement "ClickListener" [("onClickOutside", AHandler H_handleClickOutside)]
             [ trigger ];
           panel ]).

(** The element [render] returns. *)
Definition rendered (rnd1 rnd2 : string) (i : Instance) : VNode :=
  fst (fst (render rnd1 rnd2 i)).

(** The children of the fragment that [render] returns. *)
Definition fragment_children (v : VNode) : list VNode :=
  match v with
  | VElement _ _ kids => kids
  | _ => []
  end.

Definition is_FloatingMenu (v : VNode) : bool :=
  match v with
  | VElement tag _ _ => String.eqb tag "FloatingMenu"
  | _ => false
  end.

(** The floating panel is in the output: the fragment has a
    [FloatingMenu] among its children.  (What the caller puts in
    [triggerText] or [children] sits deeper and is not looked at.) *)
Definition panel_rendered (v : VNode) : bool :=
  existsb is_FloatingMenu (fragment_children v).

(** ** The lifecycle React drives *)

(** The render phase: React merges what [getDerivedStateFromProps] returns
    into the state, and leaves the state alone on [null]. *)
Definition derive (p : Props.t) (s : State.t) : State.t :=
  match getDerivedStateFromProps p s with
  | Some partial => State.merge s partial
  | None => s
  end.

(** The instance at its first render: the class fields, and the state
    derived from [state = {}]. *)
Definition mount (u : Props.user) : Instance :=
  let p := Props.withDefaults u in
  {| props := p; state := derive p State.initial;
     _hasContextMenu := false; _tooltipEl := None; triggerEl := None;
     triggerId := None; tooltipId := None; hoverTimer := None |}.

(** A later render pass with props [p]: after a [setState] ([p] is then
    the props the instance has) or when the parent renders again. *)
Definition rerender (p : Props.t) : M unit :=
  fun i =>
    (tt,
     {| props := p; state := derive p (state i);
        _hasContextMenu := _hasContextMenu i; _tooltipEl := _tooltipEl i;
        triggerEl := triggerEl i; triggerId := triggerId i; tooltipId := tooltipId i;
        hoverTimer := hoverTimer i |},
     []).

(** The ref callbacks: React hands over the mounted elements, or [null]. *)
Definition set_refs (trigger : option TriggerElement) (tooltip : option Node) : M unit :=
  fun i =>
    (tt,
     {| props := props i; state := state i;
        _hasContextMenu := _hasContextMenu i; _tooltipEl := tooltip;
        triggerEl := trigger; triggerId := triggerId i; tooltipId := tooltipId i;
        hoverTimer := hoverTimer i |},
     []).

(** What can happen to a mounted tooltip. *)
Inductive Action :=
| Mouse (evt : MouseEvent)               (* a listener calls [handleMouse] *)
| KeyDown (evt : KeyboardEvent)          (* [onKeyDown] *)
| ClickOutside (evt : option MouseEvent) (* [ClickListener] reports a click *)
| Elapse (ms : nat)                      (* time passes *)
| AnimationFrame                         (* the callback of [componentDidMount] *)
| Rerender                               (* the render pass after a [setState] *)
| NewProps (u : Props.user)              (* the parent renders again *)
| Refs (trigger : option TriggerElement) (tooltip : option Node).

Definition step (a : Action) : M unit :=
  match a with
  | Mouse evt => handleMouse evt
  | KeyDown evt => handleKeyPress evt
  | ClickOutside evt => handleClickOutside evt
  | Elapse ms => elapse ms
  | AnimationFrame => getTriggerPosition
  | Rerender => i <- this ;; rerender (props i)
  | NewProps u => rerender (Props.withDefaults u)
  | Refs trigger tooltip => set_refs trigger tooltip
  end.

Definition run (acts : list Action) (i : Instance) : Instance :=
  fold_left (fun i a => exec (step a) i) acts i.

(** ** [getMenuOffset] *)

Module MenuOffset.

Local Open Scope float_scope.

(** The computed [::before] style of the menu body, as
    [getPropertyValue] answers; a property that is not set gives [""]. *)
Definition CSSStyleDeclaration := string -> string.

Record MenuBody := mkMenuBody { before_style : CSSStyleDeclaration }.

Definition getComputedStyle_before (menuBody : MenuBody) : CSSStyleDeclaration :=
  before_style menuBody.

(** The offset object a floating menu takes. *)
Record offset := mkOffset { left : float; top : float }.

Definition is_digit (c : ascii) : bool :=
  let n := nat_of_ascii c in ((48 <=? n) && (n <=? 57))%nat.

Definition is_digit_or_hyphen (c : ascii) : bool :=
  is_digit c || Ascii.eqb c "-"%char.

(** [(/^([\d-]+)px$/.exec(s) || [])[1]]: the text before a final [px],
    when it is not empty and made of digits and hyphens; [None] is
    [undefined]. *)
Fixpoint before_px (s : string) : option string :=
  match s with
  | EmptyString => None
  | String c rest =>
      if String.eqb rest "px" then
        if is_digit_or_hyphen c then Some (String c EmptyString) else None
      else if is_digit_or_hyphen c then
        match before_px rest with
        | Some body => Some (String c body)
        | None => None
        end
      else None
  end.

(** The value of a string of decimal digits; [None] when the string is
    empty or has another character. *)
Fixpoint decimal_from (acc : N) (s : string) : option N :=
  match s with
  | EmptyString => Some acc
  | String c rest =>
      if is_digit c
      then decimal_from (acc * 10 + N.of_nat (nat_of_ascii c - 48)) rest
      else None
  end.

Definition decimal (s : string) : option N :=
  match s with
  | EmptyString => None
  | _ => decimal_from 0%N s
  end.

(** The binary64 number nearest to a natural number (ties to even). *)
Definition float_of_N (n : N) : float :=
  SF2Prim (binary_normalize prec emax (Z.of_N n) 0%Z false).

(** [Number(x)] for [undefined] and for a string of digits and hyphens:
    an optional sign and decimal digits give their value, anything else
    is [NaN]. *)
Definition Number (x : option string) : float :=
  match x with
  | None => nan
  | Some (String "-"%char digits) =>
      match decimal digits with
      | Some n => - float_of_N n
      | None => nan
      end
  | Some s =>
      match decimal s with
      | Some n => float_of_N n
      | None => nan
      end
  end.

(** A number is falsy when it is [NaN], [0] or [-0]. *)
Definition falsy (x : float) : bool := is_nan x || is_zero x.

(** [Math.pow(x, 2)] and [Math.sqrt]. *)
Definition Math_pow2 (x : float) : float := x * x.
Definition Math_sqrt (x : float) : float := sqrt x.

(** An object with string keys, in insertion order. *)
Definition obj := list (string * float).

Fixpoint obj_set (o : obj) (k : string) (v : float) : obj :=
  match o with
  | [] => [(k, v)]
  | (k', v') :: o' =>
      if String.eqb k' k then (k', v) :: o' else (k', v') :: obj_set o' k v
  end.

Fixpoint obj_get (o : obj) (k : string) : option float :=
  match o with
  | [] => None
  | (k', v') :: o' => if String.eqb k' k then Some v' else obj_get o' k
  end.

Definition arrowPositionProp (menuDirection : Direction) : string :=
  match menuDirection with
  | DIRECTION_LEFT => "right"
  | DIRECTION_TOP => "bottom"
  | DIRECTION_RIGHT => "left"
  | DIRECTION_BOTTOM => "top"
  end.

Definition menuPositionAdjustmentProp (menuDirection : Direction) : string :=
  match menuDirection with
  | DIRECTION_LEFT => "left"
  | DIRECTION_TOP => "top"
  | DIRECTION_RIGHT => "left"
  | DIRECTION_BOTTOM => "top"
  end.

(** The object [values] when it is tested: the two parsed numbers, the
    arrow position replaced by [-6] when it is falsy. *)
Definition values_of (arrowStyle : CSSStyleDeclaration) (menuDirection : Direction) : obj :=
  let values :=
    fold_left
      (fun o name => obj_set o name (Number (before_px (arrowStyle name))))
      [arrowPositionProp menuDirection; "border-bottom-width"%string]
      [] in
  let arrowPosition :=
    match obj_get values (arrowPositionProp menuDirection) with
    | Some v => if falsy v then -6 else v
    | None => -6
    end in
  obj_set values (arrowPositionProp menuDirection) arrowPosition.

(** [getMenuOffset(menuBody, menuDirection)]; [None] is the [undefined]
    of falling off the end of the function. *)
Definition getMenuOffset (menuBody : MenuBody) (menuDirection : Direction) : option offset :=
  let arrowStyle := getComputedStyle_before menuBody in
  let values := values_of arrowStyle menuDirection in
  if forallb (fun kv => negb (is_nan (snd kv))) values then
    match obj_get values (arrowPositionProp menuDirection),
          obj_get values "border-bottom-width" with
    | Some arrowPosition, Some borderBottomWidth =>
        let adjustment := Math_sqrt (Math_pow2 borderBottomWidth * 2) - arrowPosition in
        if String.eqb (menuPositionAdjustmentProp menuDirection) "left"
        then Some {| left := adjustment; top := 0 |}
        else Some {| left := 0; top := adjustment |}
    | _, _ => None
    end
  else None.

End MenuOffset.

(** * The vocabulary of the properties *)

(** ** Induction over the DOM tree *)

Section NodeInduction.

Variable P : Node -> Prop.
Hypothesis step_node : forall i r ks, Forall P ks -> P (MkNode i r ks).

Fixpoint Node_ind_nested (n : Node) : P n :=
  match n with
  | MkNode i r ks =>
      step_node i r ks
        ((fix all (l : list Node) : Forall P l :=
            match l with
            | [] => Forall_nil P
            | k :: l' => Forall_cons k (Node_ind_nested k) (all l')
            end) ks)
  end.

End NodeInduction.

(** ** Predicates on events and instances *)

(** The target of the click is inside the panel element. *)
Definition target_in_panel (i : Instance) (evt : option MouseEvent) : Prop :=
  exists e t el,
    evt = Some e /\ target e = Some t /\ _tooltipEl i = Some el /\ Within el t.

(** The keys that toggle the tooltip. *)
Definition toggle_key (k : JsKey) : Prop :=
  k = KString "Enter" \/ k = KString " " \/ k = KNumber 13 \/ k = KNumber 32.

(** The related target of the event is inside the trigger element or
    inside the panel element. *)
Definition related_in_trigger_or_panel (i : Instance) (evt : MouseEvent) : Prop :=
  exists rt,
    relatedTarget evt = Some rt
    /\ ((exists el, triggerEl i = Some el /\ Within (trigger_node el) rt)
        \/ (exists el, _tooltipEl i = Some el /\ Within el rt)).

(** The same, as far as the component can tell: a trigger element
    without a [contains] method is not asked. *)
Definition related_seen_inside (i : Instance) (evt : MouseEvent) : Prop :=
  exists rt,
    relatedTarget evt = Some rt
    /\ ((exists el, triggerEl i = Some el /\ trigger_has_contains el = true
                    /\ Within (trigger_node el) rt)
        \/ (exists el, _tooltipEl i = Some el /\ Within el rt)).

(** Hover mode as the specification words it: every ['over'] event opens
    the tooltip after the window, and every ['out'] event closes it unless
    the related target is inside the trigger or the panel. *)
Definition hover_claim_as_stated : Prop :=
  forall i evt,
    Props.clickToOpen (props i) = false ->
    let i' := exec (elapse debounce_wait) (exec (handleMouse evt) i) in
    (hover_state_of (type evt) = Some over -> State.open (state i') = Some true)
    /\ (hover_state_of (type evt) = Some out ->
        (related_in_trigger_or_panel i evt -> State.open (state i') = State.open (state i))
        /\ (~ related_in_trigger_or_panel i evt -> State.open (state i') = Some false)).

(** What every instance satisfies once it is mounted: [state.prevOpen]
    holds the [open] prop of the last render. *)
Definition prevOpen_tracks_prop (i : Instance) : Prop :=
  State.prevOpen (state i) = Some (Props.open (props i)).

(** What the specification says of context-menu events: handling some
    [contextmenu] event changes [state.open]. *)
Definition contextmenu_changes_open : Prop :=
  exists i evt,
    type evt = ContextMenu
    /\ State.open (state (exec (handleMouse evt) i)) <> State.open (state i).

(** ** What happens between two events of [handleMouse] *)

Definition is_mouse (a : Action) : bool :=
  match a with Mouse _ => true | _ => false end.

(** No action of the list goes to [handleMouse]. *)
Definition no_mouse (acts : list Action) : bool :=
  forallb (fun a => negb (is_mouse a)) acts.

(** The time that passes over a list of actions. *)
Fixpoint elapsed (acts : list Action) : nat :=
  match acts with
  | [] => 0
  | Elapse ms :: rest => ms + elapsed rest
  | _ :: rest => elapsed rest
  end.

(** Whether the last event that [handleMouse] handled was a
    [contextmenu]; [before] answers for the time before the list. *)
Definition contextmenu_was_last (before : bool) (acts : list Action) : bool :=
  fold_left (fun b a => match a with
                        | Mouse evt => is_contextmenu (type evt)
                        | _ => b
                        end) acts before.

(** The action is an event the component handles. *)
Definition is_event (a : Action) : bool :=
  match a with
  | Mouse _ | KeyDown _ | ClickOutside _ => true
  | _ => false
  end.

Definition is_contextmenu_event (a : Action) : bool :=
  match a with
  | Mouse evt => is_contextmenu (type evt)
  | _ => false
  end.

(** The suppression as the specification words it: any event that is
    not a [contextmenu] clears the flag, so that a leave which follows it
    is scheduled again. *)
Definition suppression_claim_as_stated : Prop :=
  forall i e1 a e3,
    Props.clickToOpen (props i) = false ->
    type e1 = ContextMenu ->
    is_event a = true -> is_contextmenu_event a = false ->
    hover_state_of (type e3) = Some out ->
    let later := exec (step a) (exec (handleMouse e1) i) in
    _hasContextMenu later = false
    /\ hoverTimer (exec (handleMouse e3) later)
       = Some (mkPending out (relatedTarget e3) debounce_wait).

(** Hover mode as the specification words it, asked only of instances
    whose [contextmenu] flag is clear. *)
Definition hover_claim_with_flag_clear : Prop :=
  forall i evt,
    Props.clickToOpen (props i) = false ->
    _hasContextMenu i = false ->
    hover_state_of (type evt) = Some out ->
    let i' := exec (elapse debounce_wait) (exec (handleMouse evt) i) in
    (related_in_trigger_or_panel i evt -> State.open (state i') = State.open (state i))
    /\ (~ related_in_trigger_or_panel i evt -> State.open (state i') = Some false).

(** ** The offset of the menu, in the words of the specification *)

Section MenuOffsetSpec.

Local Open Scope float_scope.

Variable menuBody : MenuOffset.MenuBody.
Variable menuDirection : Direction.

(** A property of the arrow's computed [::before] style, parsed as a
    number of pixels. *)
Definition parsed_px (name : string) : float :=
  MenuOffset.Number (MenuOffset.before_px (MenuOffset.before_style menuBody name)).

(** The side the arrow is positioned from. *)
Definition arrow_side : string :=
  match menuDirection with
  | DIRECTION_LEFT => "right"
  | DIRECTION_TOP => "bottom"
  | DIRECTION_RIGHT => "left"
  | DIRECTION_BOTTOM => "top"
  end.

(** The arrow position: [-6] when the parsed value is missing (not a
    number) or zero. *)
Definition arrowPosition : float :=
  let parsed := parsed_px arrow_side in
  if is_nan parsed || is_zero parsed then -6 else parsed.

Definition borderBottomWidth : float := parsed_px "border-bottom-width".


End MenuOffsetSpec.

(** ** Sample elements, props and instances *)

Definition svg_icon : Node := MkNode 2 (mkRect 10 20 16 16) [].
Definition trigger_div : Node := MkNode 1 (mkRect 10 20 16 16) [svg_icon].
Definition panel_div : Node := MkNode 5 (mkRect 40 20 100 50) [MkNode 6 (mkRect 40 20 10 10) []].
Definition elsewhere : Node := MkNode 9 (mkRect 0 0 5 5) [].

Definition no_props : Props.user :=
  Props.mkUser None None None None None None None None None [] None None None None
    false None [].

Definition click_props : Props.user :=
  Props.mkUser None None None None None None None None None [] None None None None
    true None [].

Definition open_props : Props.user :=
  Props.mkUser (Some true) None None None None None None None None [] None None None None
    false None [].

Definition hover_tooltip : Instance := mount no_props.
Definition click_tooltip : Instance := mount click_props.

(** A hover tooltip that is open, with its elements mounted. *)
Definition open_hover_tooltip : Instance :=
  run [ Refs (Some (mkTrigger svg_icon true)) None;
        Mouse (mkMouseEvent MouseOver None (Some svg_icon));
        Elapse 200; Rerender;
        Refs (Some (mkTrigger svg_icon true)) (Some panel_div) ]
    hover_tooltip.

(** An open hover tooltip whose trigger, the [div] around the icon, has
    no [contains] method. *)
Definition open_without_contains : Instance :=
  exec (set_refs (Some (mkTrigger trigger_div false)) (Some panel_div)) open_hover_tooltip.

(** An open hover tooltip whose panel has just had a [contextmenu] event. *)
Definition after_contextmenu : Instance :=
  exec (handleMouse (mkMouseEvent ContextMenu None (Some panel_div))) open_hover_tooltip.

(** A downward menu whose arrow has a 6px border and sits 6px above. *)
Definition carbon_arrow : MenuOffset.MenuBody :=
  MenuOffset.mkMenuBody
    (fun name =>
       if String.eqb name "top" then "-6px"
       else if String.eqb name "border-bottom-width" then "6px"
       else if String.eqb name "left" then "0px"
       else "auto").

(** The value of an attribute of an element; of several with one name the
    last one counts. *)
Fixpoint attr_in (name : string) (attrs : list (string * AttrVal)) : option AttrVal :=
  match attrs with
  | [] => None
  | (n, v) :: rest =>
      match attr_in name rest with
      | Some later => Some later
      | None => if String.eqb n name then Some v else None
      end
  end.

Definition attr (name : string) (v : VNode) : option AttrVal :=
  match v with
  | VElement _ attrs _ => attr_in name attrs
  | _ => None
  end.

Definition child (n : nat) (v : VNode) : VNode := nth n (fragment_children v) VNothing.

(** The element of the output that carries the trigger's listeners: with
    [showIcon] the inner [div] next to the trigger text, else the only
    [div]. *)
Definition rendered_trigger (showIcon : bool) (v : VNode) : VNode :=
  let outer := child 0 (child 0 v) in
  if showIcon then child 1 outer else outer.

(** The [div] inside the [FloatingMenu], when there is one. *)
Definition rendered_panel (v : VNode) : VNode := child 0 (child 1 v).

(** ** Facts about mounted instances *)

(** [state.open] holds a boolean. *)
Definition open_is_boolean (i : Instance) : Prop :=
  exists b, State.open (state i) = Some b.

(** A pending hover call has at most the full wait, and some time, left. *)
Definition timer_within_wait (i : Instance) : Prop :=
  match hoverTimer i with
  | Some p => (0 < pending_ms p <= debounce_wait)%nat
  | None => True
  end.

(** The action does not switch the tooltip to hover mode. *)
Definition keeps_click_mode (a : Action) : bool :=
  match a with
  | NewProps u => Props.u_clickToOpen u
  | _ => true
  end.


(** ** A sample page *)

Definition document_node : Node := MkNode 100 (mkRect 0 0 800 600) [].
Definition body_node : Node := MkNode 101 (mkRect 0 0 800 600) [].
Definition container_node : Node := MkNode 50 (mkRect 0 0 400 300) [].

Definition is_container_selector (selector : string) : bool :=
  String.eqb selector "[data-floating-menu-container]".

(** The icon sits in the trigger [div], inside a floating-menu container,
    inside the body. *)
Definition sample_page : Page :=
  {| Element_prototype := Some ["webkitMatchesSelector"; "matches"];
     document_body := body_node;
     ownerDocument := fun _ => document_node;
     parentChain := fun n =>
       if Nat.eqb (node_id n) 2
       then [trigger_div; container_node; body_node; document_node]
       else [];
     methods := fun n =>
       if Nat.eqb (node_id n) 50
       then [("matches", is_container_selector)]
       else if Nat.eqb (node_id n) 100 then []
       else [("matches", fun _ => false)] |}.

(** A browser without [Element]. *)
Definition legacy_page : Page :=
  {| Element_prototype := None;
     document_body := body_node;
     ownerDocument := ownerDocument sample_page;
     parentChain := parentChain sample_page;
     methods := fun _ => [] |}.

(** * Properties *)

(** ** Containment in the DOM tree *)

Lemma subtree_ids_unfold : forall n,
  subtree_ids n = node_id n :: flat_map subtree_ids (childNodes n).
Proof. intros [i r ks]; reflexivity. Qed.

Lemma Within_subtree_ids : forall e t,
  Within e t <-> In (node_id t) (subtree_ids e).
Proof.
  intros e t; split.
  - induction 1 as [e t Heq | e k t Hk _ IH].
    + rewrite subtree_ids_unfold, Heq; left; reflexivity.
    + rewrite subtree_ids_unfold; right.
      apply in_flat_map; exists k; split; assumption.
  - revert e; refine (Node_ind_nested _ _); intros i r ks IH Hin.
    rewrite subtree_ids_unfold in Hin; cbn [node_id childNodes] in Hin.
    destruct Hin as [Heq | Hin].
    + apply within_self; symmetry; exact Heq.
    + apply in_flat_map in Hin; destruct Hin as [k [Hk Hin]].
      apply within_kid with (k := k); [exact Hk | ].
      rewrite Forall_forall in IH; apply IH; assumption.
Qed.

(** [contains] decides containment in the tree. *)
Lemma contains_Within : forall e t, contains e t = true <-> Within e t.
Proof.
  intros e t; unfold contains; rewrite Within_subtree_ids, existsb_exists; split.
  - intros [x [Hin Heq]]; apply Nat.eqb_eq in Heq; subst; exact Hin.
  - intros Hin; exists (node_id t); split; [exact Hin | apply Nat.eqb_refl].
Qed.

Lemma contains_not_Within : forall e t, contains e t = false <-> ~ Within e t.
Proof.
  intros e t; rewrite <- contains_Within; destruct (contains e t); split;
    congruence || (intro H; exfalso; apply H; reflexivity) || auto.
Qed.

(** ** Reading handlers *)

Arguments hover_shouldPreventClose : simpl never.
Arguments debounce_wait : simpl never.

Ltac run_handler :=
  unfold exec, calls, rendered, render, handleMouse, handleKeyPress, handleClickOutside,
    elapse, _debouncedHandleHover, _handleHover, getTriggerPosition, when,
    setState, set_hasContextMenu, set_hoverTimer, set_triggerId, set_tooltipId,
    rerender, bind, ret, this, call in *;
  cbn in *.

(** ** Some traces *)

(** Leaving the icon for the [div] around it: the trigger contains the
    related target and the tooltip stays open. *)
Example out_into_trigger_stays_open :
  State.open
    (state (run [ Refs (Some (mkTrigger trigger_div true)) (Some panel_div);
                  Mouse (mkMouseEvent MouseOut (Some svg_icon) (Some trigger_div));
                  Elapse 200 ]
              open_hover_tooltip))
  = Some true.
Proof. reflexivity. Qed.

(** The same with a trigger that has no [contains] method: it closes. *)
Example out_into_trigger_without_contains_closes :
  State.open
    (state (run [ Refs (Some (mkTrigger trigger_div false)) (Some panel_div);
                  Mouse (mkMouseEvent MouseOut (Some svg_icon) (Some trigger_div));
                  Elapse 200 ]
              open_hover_tooltip))
  = Some false.
Proof. reflexivity. Qed.

(** Leaving and coming back within the window: only the last call runs. *)
Example out_then_over_within_window :
  State.open
    (state (run [ Mouse (mkMouseEvent MouseOut (Some elsewhere) (Some svg_icon));
                  Elapse 150;
                  Mouse (mkMouseEvent MouseOver None (Some panel_div));
                  Elapse 150; Elapse 50 ]
              open_hover_tooltip))
  = Some true.
Proof. reflexivity. Qed.

(** In hover mode a click on the trigger goes to the debounced handler,
    which takes whatever is not ['over'] for a leave. *)
Example click_in_hover_mode_closes :
  State.open
    (state (run [ Mouse (mkMouseEvent Click None (Some svg_icon)); Elapse 200 ]
              open_hover_tooltip))
  = Some false.
Proof. reflexivity. Qed.

(** ** C1: the panel is rendered exactly when the state is open *)

(** C1.  Whatever the instance and the generated ids, the element that
    [render] returns has the floating panel among the children of its
    fragment if and only if [state.open] is [true]. *)
Theorem render_panel_iff_open : forall rnd1 rnd2 i,
  panel_rendered (rendered rnd1 rnd2 i) = true <-> State.open (state i) = Some true.
Proof.
  intros rnd1 rnd2 [p [[[|]|] prev pos] ctx tip trig tid ttid timer];
    run_handler;
    destruct (Props.triggerId p), (Props.tooltipId p); cbn;
    unfold panel_rendered; cbn;
    split; intro H; congruence.
Qed.

(** ** C3: click mode *)

(** C3.  With [clickToOpen], [handleMouse] on a click negates
    [state.open] before it returns and leaves the hover timer alone; it
    calls [stopPropagation] once, and then [getTriggerPosition] exactly
    when the new state is open.  That call stores the bounding rectangle
    of the trigger element in [state.triggerPosition] when there is one;
    when the toggle closes, or there is no trigger element,
    [state.triggerPosition] stays as it was. *)
Theorem click_toggles_synchronously : forall i evt,
  Props.clickToOpen (props i) = true ->
  type evt = Click ->
  let was_open := State.truthy (State.open (state i)) in
  let i' := exec (handleMouse evt) i in
  State.open (state i') = Some (negb was_open)
  /\ hoverTimer i' = hoverTimer i
  /\ calls (handleMouse evt) i
     = stopPropagation :: (if negb was_open then [getTriggerPosition_called] else [])
  /\ (In getTriggerPosition_called (calls (handleMouse evt) i)
      <-> State.open (state i') = Some true)
  /\ State.triggerPosition (state i')
     = match triggerEl i with
       | Some el =>
           if negb was_open
           then Some (getBoundingClientRect (trigger_node el))
           else State.triggerPosition (state i)
       | None => State.triggerPosition (state i)
       end
  /\ State.prevOpen (state i') = State.prevOpen (state i).
Proof.
  intros [p [[[|]|] prev pos] ctx tip [trig|] tid ttid timer] [ty rt tg] Hmode Hty;
    cbn in Hmode, Hty; subst ty;
    run_handler; rewrite Hmode; cbn;
    repeat split; intros; try reflexivity; try congruence;
    try (left; reflexivity); try (right; left; reflexivity);
    try (match goal with
         | H : _ \/ _ |- _ => destruct H as [H|H]; try discriminate H; try contradiction
         end).
Qed.

Lemma click_toggles_synchronously_witness :
  let mounted := exec (set_refs (Some (mkTrigger svg_icon true)) None) click_tooltip in
  let click := mkMouseEvent Click None (Some svg_icon) in
  State.open (state (exec (handleMouse click) mounted)) = Some true
  /\ calls (handleMouse click) mounted = [stopPropagation; getTriggerPosition_called]
  /\ State.triggerPosition (state (exec (handleMouse click) mounted))
     = Some (mkRect 10 20 16 16)
  /\ State.triggerPosition (state click_tooltip) = None.
Proof.
  cbv zeta.
  destruct (click_toggles_synchronously
              (exec (set_refs (Some (mkTrigger svg_icon true)) None) click_tooltip)
              (mkMouseEvent Click None (Some svg_icon)) eq_refl eq_refl)
    as [Hopen [_ [Hcalls [_ [Hposition _]]]]].
  split; [exact Hopen | split; [exact Hcalls | split; [exact Hposition | reflexivity]]].
Defined.

(** ** C5: a click outside *)

(** C5.  [handleClickOutside] leaves the instance as it is when the
    target of the click is inside the panel element, and otherwise sets
    [state.open] to [false] and changes nothing else. *)
Theorem click_outside_closes : forall i evt,
  let i' := exec (handleClickOutside evt) i in
  (target_in_panel i evt -> i' = i)
  /\ (~ target_in_panel i evt ->
      State.open (state i') = Some false
      /\ State.prevOpen (state i') = State.prevOpen (state i)
      /\ State.triggerPosition (state i') = State.triggerPosition (state i)
      /\ hoverTimer i' = hoverTimer i).
Proof.
  intros i evt; unfold target_in_panel; split.
  - intros [e [t [el [He [Ht [Hel Hin]]]]]]; subst evt.
    apply contains_Within in Hin.
    destruct i; cbn in *; subst; run_handler; rewrite Ht, Hin; reflexivity.
  - intros Hnot.
    assert (Hfalse :
      match evt with
      | Some e => match target e, _tooltipEl i with
                  | Some t, Some el => contains el t
                  | _, _ => false
                  end
      | None => false
      end = false).
    { destruct evt as [e|]; [|reflexivity].
      destruct (target e) as [t|] eqn:Ht; [|reflexivity].
      destruct (_tooltipEl i) as [el|] eqn:Hel; [|reflexivity].
      apply contains_not_Within; intro Hin; apply Hnot.
      exists e, t, el; auto. }
    destruct i; run_handler; rewrite Hfalse; cbn; auto.
Qed.

Lemma click_outside_closes_witness :
  State.open (state (exec (handleClickOutside (Some (mkMouseEvent Click None (Some elsewhere))))
                       (run [Mouse (mkMouseEvent Click None None); Refs None (Some panel_div)]
                          click_tooltip)))
  = Some false.
Proof.
  refine (proj1 (proj2 (click_outside_closes _ _) _)).
  intros [e [t [el [He [Ht [Hel Hin]]]]]].
  injection He as <-; injection Ht as <-; injection Hel as <-.
  apply contains_Within in Hin; discriminate Hin.
Defined.

(** ** C6: the keyboard *)

Lemma is_toggle_key_spec : forall k, is_toggle_key k = true <-> toggle_key k.
Proof.
  intros k; unfold toggle_key; destruct k as [|s|n]; cbn.
  - split; [discriminate | intros [H|[H|[H|H]]]; discriminate H].
  - rewrite orb_true_iff, !String.eqb_eq; split.
    + intros [H|H]; subst; auto.
    + intros [H|[H|[H|H]]]; try discriminate H; injection H as ->; auto.
  - rewrite orb_true_iff, !Z.eqb_eq; split.
    + intros [H|H]; subst; auto.
    + intros [H|[H|[H|H]]]; try discriminate H; injection H as ->; auto.
Qed.

(** C6.  [handleKeyPress] on a key that is ['Enter'], [' '], [13] or
    [32] negates [state.open] and calls [stopPropagation]; on any other
    key it leaves the instance as it is and calls nothing. *)
Theorem key_press_toggles : forall i evt,
  let i' := exec (handleKeyPress evt) i in
  (toggle_key (key_of evt) ->
     State.open (state i') = Some (negb (State.truthy (State.open (state i))))
     /\ calls (handleKeyPress evt) i = [stopPropagation])
  /\ (~ toggle_key (key_of evt) ->
     i' = i /\ calls (handleKeyPress evt) i = []).
Proof.
  intros i evt; cbv zeta; rewrite <- is_toggle_key_spec.
  unfold exec, calls, handleKeyPress.
  destruct (is_toggle_key (key_of evt)); split; intro H;
    try discriminate H; try (exfalso; apply H; reflexivity);
    destruct i; run_handler; split; reflexivity.
Qed.

Lemma key_press_toggles_witness :
  (State.open (state (exec (handleKeyPress (mkKeyboardEvent (Some "Enter") (Some 13%Z)))
                        hover_tooltip)) = Some true
   /\ calls (handleKeyPress (mkKeyboardEvent (Some "Enter") (Some 13%Z))) hover_tooltip
      = [stopPropagation])
  /\ (exec (handleKeyPress (mkKeyboardEvent (Some "a") (Some 13%Z))) hover_tooltip
      = hover_tooltip
      /\ calls (handleKeyPress (mkKeyboardEvent (Some "a") (Some 13%Z))) hover_tooltip = []).
Proof.
  split.
  - apply (proj1 (key_press_toggles hover_tooltip
                    (mkKeyboardEvent (Some "Enter") (Some 13%Z)))).
    left; reflexivity.
  - apply (proj2 (key_press_toggles hover_tooltip
                    (mkKeyboardEvent (Some "a") (Some 13%Z)))).
    intros [H|[H|[H|H]]]; discriminate H.
Defined.

(** ** C10: click mode ignores hover, focus and context-menu events *)

(** C10.  With [clickToOpen], [handleMouse] on an event that is not a
    click changes neither the state nor the timer of the debounced hover
    handler, and calls nothing; the only field it writes is
    [_hasContextMenu]. *)
Theorem click_mode_ignores_hover : forall i evt,
  Props.clickToOpen (props i) = true ->
  type evt <> Click ->
  let i' := exec (handleMouse evt) i in
  state i' = state i
  /\ hoverTimer i' = hoverTimer i
  /\ calls (handleMouse evt) i = []
  /\ props i' = props i /\ _tooltipEl i' = _tooltipEl i /\ triggerEl i' = triggerEl i.
Proof.
  intros [p s ctx tip trig tid ttid timer] [ty rt tg] Hmode Hty;
    cbn in Hmode, Hty; run_handler; rewrite Hmode.
  destruct ty; cbn; try contradiction; repeat split; reflexivity.
Qed.

Lemma click_mode_ignores_hover_witness :
  state (exec (handleMouse (mkMouseEvent MouseOver None (Some svg_icon))) click_tooltip)
  = state click_tooltip
  /\ hoverTimer (exec (handleMouse (mkMouseEvent MouseOver None (Some svg_icon))) click_tooltip)
     = None.
Proof.
  destruct (click_mode_ignores_hover click_tooltip
              (mkMouseEvent MouseOver None (Some svg_icon)) eq_refl)
    as [Hstate [Htimer _]].
  - discriminate.
  - split; [exact Hstate | exact Htimer].
Defined.

(** ** Between two events of [handleMouse] *)

Lemma step_keeps_flag : forall a i,
  is_mouse a = false -> _hasContextMenu (exec (step a) i) = _hasContextMenu i.
Proof.
  intros a [p s ctx tip trig tid ttid timer] Ha.
  destruct a as [evt | evt | evt | ms | | | u | trigger tooltip]; cbn [step];
    try discriminate Ha.
  - unfold exec, handleKeyPress; destruct (is_toggle_key (key_of evt));
      run_handler; reflexivity.
  - run_handler.
    match goal with |- context [negb ?b] => destruct b end; reflexivity.
  - run_handler. destruct timer as [[st rt left]|]; cbn; [|reflexivity].
    destruct (left <=? ms)%nat; cbn; [|reflexivity].
    destruct st; cbn; try (destruct trig; reflexivity);
      destruct (hover_shouldPreventClose _ rt); reflexivity.
  - run_handler; destruct trig; reflexivity.
  - run_handler; reflexivity.
  - run_handler; reflexivity.
  - reflexivity.
Qed.

Lemma step_keeps_timer : forall a i,
  is_mouse a = false -> (forall ms, a <> Elapse ms) ->
  hoverTimer (exec (step a) i) = hoverTimer i.
Proof.
  intros a [p s ctx tip trig tid ttid timer] Ha Hne.
  destruct a as [evt | evt | evt | ms | | | u | trigger tooltip]; cbn [step];
    try discriminate Ha.
  - unfold exec, handleKeyPress; destruct (is_toggle_key (key_of evt));
      run_handler; reflexivity.
  - run_handler.
    match goal with |- context [negb ?b] => destruct b end; reflexivity.
  - exfalso; exact (Hne ms eq_refl).
  - run_handler; destruct trig; reflexivity.
  - run_handler; reflexivity.
  - run_handler; reflexivity.
  - reflexivity.
Qed.

Lemma elapse_before_due : forall i st rt left ms,
  hoverTimer i = Some (mkPending st rt left) -> (ms < left)%nat ->
  hoverTimer (exec (elapse ms) i) = Some (mkPending st rt (left - ms))
  /\ state (exec (elapse ms) i) = state i.
Proof.
  intros [p s ctx tip trig tid ttid timer] st rt left ms Ht Hms; cbn in Ht; subst timer.
  apply Nat.leb_gt in Hms; run_handler; rewrite Hms; cbn; split; reflexivity.
Qed.

Lemma run_keeps_flag : forall acts i,
  no_mouse acts = true -> _hasContextMenu (run acts i) = _hasContextMenu i.
Proof.
  induction acts as [|a acts IH]; intros i Hno; cbn; [reflexivity|].
  cbn in Hno; apply andb_true_iff in Hno; destruct Hno as [Ha Hno].
  rewrite IH by exact Hno; apply step_keeps_flag.
  destruct (is_mouse a); [discriminate Ha | reflexivity].
Qed.

Lemma run_keeps_timer : forall acts i st rt left,
  no_mouse acts = true ->
  hoverTimer i = Some (mkPending st rt left) ->
  (elapsed acts < left)%nat ->
  hoverTimer (run acts i) = Some (mkPending st rt (left - elapsed acts)).
Proof.
  induction acts as [|a acts IH]; intros i st rt left Hno Ht He.
  - cbn; rewrite Ht, Nat.sub_0_r; reflexivity.
  - cbn in Hno; apply andb_true_iff in Hno; destruct Hno as [Ha Hno].
    assert (Ha' : is_mouse a = false) by (destruct (is_mouse a); [discriminate Ha | reflexivity]).
    destruct a as [evt | evt | evt | ms | | | u | trigger tooltip];
      try discriminate Ha';
      try (cbn [run fold_left elapsed] in *;
           apply IH; [exact Hno | | exact He];
           rewrite step_keeps_timer by (auto; intros ms; discriminate); exact Ht).
    cbn [elapsed] in He |- *.
    change (run (Elapse ms :: acts) i) with (run acts (exec (elapse ms) i)).
    destruct (elapse_before_due i st rt left ms Ht) as [Hnext _]; [lia|].
    rewrite (IH _ st rt (left - ms) Hno Hnext) by lia.
    replace (left - ms - elapsed acts)%nat with (left - (ms + elapsed acts))%nat by lia.
    reflexivity.
Qed.

Lemma flag_follows_history : forall acts i,
  _hasContextMenu (run acts i) = contextmenu_was_last (_hasContextMenu i) acts.
Proof.
  induction acts as [|a acts IH]; intros i; [reflexivity|].
  change (run (a :: acts) i) with (run acts (exec (step a) i)).
  rewrite IH; unfold contextmenu_was_last; cbn [fold_left].
  replace (_hasContextMenu (exec (step a) i))
    with (match a with
          | Mouse evt => is_contextmenu (type evt)
          | _ => _hasContextMenu i
          end); [reflexivity|].
  destruct a as [evt | evt | evt | ms | | | u | trigger tooltip];
    try (symmetry; apply step_keeps_flag; reflexivity).
  destruct i as [p s ctx tip trig tid ttid timer], evt as [ty rt tg]; run_handler.
  destruct (Props.clickToOpen p), ty, ctx, trig, s as [[[|]|] prev pos]; reflexivity.
Qed.

Lemma out_dropped_after_contextmenu : forall i evt,
  _hasContextMenu i = true ->
  hover_state_of (type evt) = Some out ->
  state (exec (handleMouse evt) i) = state i
  /\ hoverTimer (exec (handleMouse evt) i) = hoverTimer i
  /\ calls (handleMouse evt) i = [].
Proof.
  intros [p s ctx tip trig tid ttid timer] [ty rt tg] Hctx Hout;
    cbn in Hctx, Hout; subst ctx; run_handler.
  destruct (Props.clickToOpen p), ty; try discriminate Hout; repeat split; reflexivity.
Qed.

Lemma elapse_runs_pending : forall i st rt left,
  hoverTimer i = Some (mkPending st rt left) ->
  exec (elapse left) i = exec (_handleHover st rt) (exec (set_hoverTimer None) i).
Proof.
  intros [p s ctx tip trig tid ttid timer] st rt left Ht; cbn in Ht; subst timer.
  run_handler; rewrite Nat.leb_refl; cbn.
  destruct st; cbn; try (destruct trig; reflexivity);
    match goal with |- context [negb ?b] => destruct b end; reflexivity.
Qed.

(** ** C4: a context menu suppresses the close that follows it *)

(** A [contextmenu], then a leave, with nothing or with one other event
    of [handleMouse] in between. *)
Lemma contextmenu_then_leave : forall i e1 e2 e3,
  Props.clickToOpen (props i) = false ->
  type e1 = ContextMenu ->
  hover_state_of (type e3) = Some out ->
  let after_menu := exec (handleMouse e1) i in
  _hasContextMenu (exec (handleMouse e2) i) = is_contextmenu (type e2)
  /\ state after_menu = state i /\ hoverTimer after_menu = hoverTimer i
  /\ state (exec (handleMouse e3) after_menu) = state i
  /\ hoverTimer (exec (handleMouse e3) after_menu) = hoverTimer i
  /\ _hasContextMenu (exec (handleMouse e3) after_menu) = false
  /\ (type e2 <> ContextMenu ->
      hoverTimer (exec (handleMouse e3) (exec (handleMouse e2) after_menu))
      = Some (mkPending out (relatedTarget e3) debounce_wait)).
Proof.
  intros [p s ctx tip trig tid ttid timer] [ty1 rt1 tg1] [ty2 rt2 tg2] [ty3 rt3 tg3]
    Hmode Hty1 Hout; cbn in Hmode, Hty1, Hout; subst ty1.
  run_handler; rewrite Hmode; cbn.
  assert (Hty3 : ty3 = MouseOut \/ ty3 = Blur)
    by (destruct ty3; try discriminate Hout; auto).
  repeat split.
  - destruct ty2, ctx; reflexivity.
  - destruct Hty3; subst; cbn; repeat (rewrite Hmode; cbn); reflexivity.
  - destruct Hty3; subst; cbn; repeat (rewrite Hmode; cbn); reflexivity.
  - destruct Hty3; subst; cbn; repeat (rewrite Hmode; cbn); reflexivity.
  - intros Hne; destruct Hty3; subst; destruct ty2; try contradiction;
      cbn; repeat (rewrite Hmode; cbn); reflexivity.
Qed.

(** C4, as stated, fails: a key press is an event that is not a
    [contextmenu], and after it the flag is still set. *)
Lemma key_press_keeps_suppression : ~ suppression_claim_as_stated.
Proof.
  intro claim.
  destruct (claim open_hover_tooltip
              (mkMouseEvent ContextMenu None (Some panel_div))
              (KeyDown (mkKeyboardEvent (Some "a") (Some 65%Z)))
              (mkMouseEvent MouseOut (Some elsewhere) (Some panel_div))
              eq_refl eq_refl eq_refl eq_refl eq_refl)
    as [Hflag _].
  discriminate Hflag.
Qed.

(** C4, amended.  [handleMouse] is the only writer of [_hasContextMenu]:
    after it the flag says whether its event was a [contextmenu], and key
    presses, outside clicks, timers, ref updates and render passes leave
    the flag as it is, so that on an instance reached from mount the flag
    says whether the last event of [handleMouse] was a [contextmenu].  In
    hover mode an ['out'] event that comes after a [contextmenu] with no
    other event of [handleMouse] in between changes neither the state nor
    the timer, whatever else happened in between; once another event of
    [handleMouse] has come in between, the ['out'] event starts the timer
    as usual. *)
Theorem contextmenu_suppresses_next_close : forall i e1 e2 e3 between,
  Props.clickToOpen (props i) = false ->
  type e1 = ContextMenu ->
  hover_state_of (type e3) = Some out ->
  no_mouse between = true ->
  let after_menu := exec (handleMouse e1) i in
  let later := run between after_menu in
  _hasContextMenu (exec (handleMouse e2) i) = is_contextmenu (type e2)
  /\ state after_menu = state i /\ hoverTimer after_menu = hoverTimer i
  /\ _hasContextMenu later = true
  /\ state (exec (handleMouse e3) later) = state later
  /\ hoverTimer (exec (handleMouse e3) later) = hoverTimer later
  /\ _hasContextMenu (exec (handleMouse e3) later) = false
  /\ (type e2 <> ContextMenu ->
      hoverTimer (exec (handleMouse e3) (exec (handleMouse e2) after_menu))
      = Some (mkPending out (relatedTarget e3) debounce_wait))
  /\ (forall u acts,
      _hasContextMenu (run acts (mount u)) = contextmenu_was_last false acts).
Proof.
  intros i e1 e2 e3 between Hmode Hty1 Hout Hno; cbv zeta.
  destruct (contextmenu_then_leave i e1 e2 e3 Hmode Hty1 Hout)
    as [Hflag [Hstate [Htimer [_ [_ [_ Hnext]]]]]].
  assert (Hset : _hasContextMenu (run between (exec (handleMouse e1) i)) = true).
  { rewrite run_keeps_flag by exact Hno.
    change (exec (handleMouse e1) i) with (run [Mouse e1] i).
    rewrite flag_follows_history; unfold contextmenu_was_last; cbn [fold_left].
    rewrite Hty1; reflexivity. }
  destruct (out_dropped_after_contextmenu _ e3 Hset Hout) as [Hs [Ht _]].
  repeat split; try assumption.
  - change (exec (handleMouse e3) (run between (exec (handleMouse e1) i)))
      with (run [Mouse e3] (run between (exec (handleMouse e1) i))).
    rewrite flag_follows_history; unfold contextmenu_was_last; cbn [fold_left].
    destruct (type e3); try discriminate Hout; reflexivity.
  - intros u acts; apply flag_follows_history.
Qed.

Lemma contextmenu_suppresses_next_close_witness :
  let menu := mkMouseEvent ContextMenu None (Some panel_div) in
  let leave := mkMouseEvent MouseOut (Some elsewhere) (Some panel_div) in
  let enter := mkMouseEvent MouseOver None (Some panel_div) in
  let typing := [KeyDown (mkKeyboardEvent (Some "a") (Some 65%Z)); Elapse 50] in
  State.open (state open_hover_tooltip) = Some true
  /\ hoverTimer (exec (handleMouse leave)
                   (run typing (exec (handleMouse menu) open_hover_tooltip))) = None
  /\ hoverTimer (exec (handleMouse leave)
                   (exec (handleMouse enter) (exec (handleMouse menu) open_hover_tooltip)))
     = Some (mkPending out (Some elsewhere) 200).
Proof.
  cbv zeta.
  destruct (contextmenu_suppresses_next_close open_hover_tooltip
              (mkMouseEvent ContextMenu None (Some panel_div))
              (mkMouseEvent MouseOver None (Some panel_div))
              (mkMouseEvent MouseOut (Some elsewhere) (Some panel_div))
              [KeyDown (mkKeyboardEvent (Some "a") (Some 65%Z)); Elapse 50]
              eq_refl eq_refl eq_refl eq_refl)
    as [_ [_ [_ [_ [_ [Htimer [_ [Hlater _]]]]]]]].
  split; [reflexivity | split].
  - rewrite Htimer; reflexivity.
  - apply Hlater; discriminate.
Defined.

(** ** C2: hover mode *)

Lemma hover_shouldPreventClose_spec : forall i evt,
  hover_shouldPreventClose i (relatedTarget evt) = true <-> related_seen_inside i evt.
Proof.
  intros i evt; unfold hover_shouldPreventClose, related_seen_inside.
  destruct (relatedTarget evt) as [rt|].
  - rewrite orb_true_iff; split.
    + intros [H|H]; exists rt; split; try reflexivity.
      * destruct (triggerEl i) as [el|]; [|discriminate H].
        apply andb_true_iff in H; destruct H as [Hc Hin].
        left; exists el; repeat split; [exact Hc | apply contains_Within; exact Hin].
      * destruct (_tooltipEl i) as [el|]; [|discriminate H].
        right; exists el; split; [reflexivity | apply contains_Within; exact H].
    + intros [rt' [Hrt [[el [Hel [Hc Hin]]] | [el [Hel Hin]]]]];
        injection Hrt as <-; rewrite Hel.
      * left; rewrite Hc; apply contains_Within; exact Hin.
      * right; apply contains_Within; exact Hin.
  - split; [discriminate | intros [rt [Hrt _]]; discriminate Hrt].
Qed.

(** C2, as stated, fails twice.  A [mouseout] to somewhere else that
    comes right after a [contextmenu] leaves the tooltip open; and, with
    the flag clear, a [mouseout] into a trigger element that has no
    [contains] method closes the tooltip although the related target is
    inside the trigger. *)
Lemma hover_close_not_as_stated :
  ~ hover_claim_as_stated /\ ~ hover_claim_with_flag_clear.
Proof.
  split; intro claim.
  - destruct (claim after_contextmenu
                (mkMouseEvent MouseOut (Some elsewhere) (Some panel_div)) eq_refl)
      as [_ Hout].
    destruct (Hout eq_refl) as [_ Hclose].
    assert (Hfar : ~ related_in_trigger_or_panel after_contextmenu
                       (mkMouseEvent MouseOut (Some elsewhere) (Some panel_div))).
    { intros [rt [Hrt [[el [Hel Hin]] | [el [Hel Hin]]]]];
        injection Hrt as <-; injection Hel as <-;
        apply contains_Within in Hin; discriminate Hin. }
    specialize (Hclose Hfar); discriminate Hclose.
  - destruct (claim open_without_contains
                (mkMouseEvent MouseOut (Some svg_icon) (Some trigger_div))
                eq_refl eq_refl eq_refl)
      as [Hkeep _].
    assert (Hinside : related_in_trigger_or_panel open_without_contains
                        (mkMouseEvent MouseOut (Some svg_icon) (Some trigger_div))).
    { exists svg_icon; split; [reflexivity|].
      left; exists (mkTrigger trigger_div false); split; [reflexivity|].
      apply contains_Within; reflexivity. }
    specialize (Hkeep Hinside); discriminate Hkeep.
Qed.

(** A hover call with nothing between the event and the end of the
    window. *)
Lemma hover_call_alone : forall i evt ms,
  Props.clickToOpen (props i) = false ->
  (ms < debounce_wait)%nat ->
  let scheduled := exec (handleMouse evt) i in
  let early := exec (elapse ms) scheduled in
  let i' := exec (elapse debounce_wait) scheduled in
  (hover_state_of (type evt) = Some over ->
     state scheduled = state i /\ state early = state i
     /\ State.open (state i') = Some true)
  /\ (hover_state_of (type evt) = Some out ->
      _hasContextMenu i = false ->
      state scheduled = state i /\ state early = state i
      /\ (related_seen_inside i evt -> state i' = state i)
      /\ (~ related_seen_inside i evt ->
          State.open (state i') = Some false
          /\ State.prevOpen (state i') = State.prevOpen (state i)
          /\ State.triggerPosition (state i') = State.triggerPosition (state i))).
Proof.
  intros i evt ms Hmode Hms; cbv zeta.
  pose proof (hover_shouldPreventClose_spec i evt) as Hspec.
  assert (Hearly : (debounce_wait <=? ms)%nat = false)
    by (apply Nat.leb_gt; exact Hms).
  assert (Hlate : (debounce_wait <=? debounce_wait)%nat = true)
    by (apply Nat.leb_refl).
  destruct i as [p s ctx tip trig tid ttid timer];
    destruct evt as [ty rt tg]; cbn in Hmode, Hspec |- *.
  split.
  - intros Hover.
    assert (Hty : ty = MouseOver \/ ty = Focus)
      by (destruct ty; try discriminate Hover; auto).
    destruct Hty; subst ty; run_handler; rewrite Hmode; cbn;
      rewrite Hearly, Hlate; destruct trig; cbn; repeat split; reflexivity.
  - intros Hout Hctx; cbn in Hctx; subst ctx.
    assert (Hty : ty = MouseOut \/ ty = Blur)
      by (destruct ty; try discriminate Hout; auto).
    destruct Hty; subst ty; run_handler; rewrite Hmode; cbn;
      rewrite Hearly, Hlate; cbn;
      unfold hover_shouldPreventClose in *; cbn [triggerEl _tooltipEl] in *;
      match goal with
      | |- context [negb ?b] => destruct b
      end; cbn;
      (split; [reflexivity | split; [reflexivity | split]]);
      intros Hin; try reflexivity; try (repeat split; reflexivity);
      exfalso; solve [ apply Hin, Hspec; reflexivity
                     | apply Hspec in Hin; discriminate Hin ].
Qed.

Lemma handleMouse_schedules : forall i evt st,
  Props.clickToOpen (props i) = false ->
  hover_state_of (type evt) = Some st ->
  is_out st = false \/ _hasContextMenu i = false ->
  hoverTimer (exec (handleMouse evt) i)
  = Some (mkPending st (relatedTarget evt) debounce_wait).
Proof.
  intros [p s ctx tip trig tid ttid timer] [ty rt tg] st Hmode Hst Hok;
    cbn in Hmode, Hst, Hok; run_handler; rewrite Hmode.
  destruct ty; try discriminate Hst; injection Hst as <-; cbn in Hok |- *;
    try reflexivity;
    destruct Hok as [Hok|Hok]; try discriminate Hok; subst ctx; reflexivity.
Qed.

Lemma handleHover_over : forall i rt,
  State.open (state (exec (_handleHover over rt) i)) = Some true.
Proof.
  intros [p s ctx tip [trig|] tid ttid timer] rt; run_handler; reflexivity.
Qed.

Lemma handleHover_leave : forall i st rt,
  st <> over ->
  let i' := exec (_handleHover st rt) i in
  (hover_shouldPreventClose i rt = true -> i' = i)
  /\ (hover_shouldPreventClose i rt = false ->
      State.open (state i') = Some false
      /\ State.prevOpen (state i') = State.prevOpen (state i)
      /\ State.triggerPosition (state i') = State.triggerPosition (state i)).
Proof.
  intros i st rt Hst; cbv zeta.
  assert (Hrun : exec (_handleHover st rt) i
                 = exec (when (negb (hover_shouldPreventClose i rt))
                           (setState [State.set_open false])) i).
  { destruct st; [contradiction | |]; destruct i; run_handler;
      match goal with |- context [negb ?b] => destruct b end; reflexivity. }
  rewrite Hrun; split; intros ->; destruct i; run_handler; repeat split; reflexivity.
Qed.

(** C2, amended.  In hover mode [handleMouse] changes no state by
    itself, and none changes while less than 200ms have passed.  The call
    it schedules runs 200ms after the event, whatever key presses, outside
    clicks, ref updates and render passes happen in between, provided no
    other event reaches [handleMouse] in that time.  When it runs, a
    [mouseover] or [focus] has set [state.open] to [true]; a [mouseout] or
    [blur] that was handled with the flag [_hasContextMenu] clear (on an
    instance reached from mount: the last event before it that went to
    [handleMouse] was not a [contextmenu]) leaves the state as it is when
    the related target is inside the panel element or inside a trigger
    element that has a [contains] method, these being the elements held
    when the call runs, and sets [state.open] to [false] otherwise. *)
Theorem hover_opens_and_closes_after_debounce : forall i evt ms between,
  Props.clickToOpen (props i) = false ->
  (ms < debounce_wait)%nat ->
  no_mouse between = true ->
  (elapsed between < debounce_wait)%nat ->
  let scheduled := exec (handleMouse evt) i in
  let early := exec (elapse ms) scheduled in
  let waiting := run between scheduled in
  let i' := exec (elapse (debounce_wait - elapsed between)) waiting in
  (hover_state_of (type evt) = Some over ->
     state scheduled = state i /\ state early = state i
     /\ State.open (state i') = Some true)
  /\ (hover_state_of (type evt) = Some out ->
      _hasContextMenu i = false ->
      state scheduled = state i /\ state early = state i
      /\ (related_seen_inside waiting evt -> state i' = state waiting)
      /\ (~ related_seen_inside waiting evt ->
          State.open (state i') = Some false
          /\ State.prevOpen (state i') = State.prevOpen (state waiting)
          /\ State.triggerPosition (state i') = State.triggerPosition (state waiting)))
  /\ (forall u acts,
      _hasContextMenu (run acts (mount u)) = contextmenu_was_last false acts).
Proof.
  intros i evt ms between Hmode Hms Hno Hbetween; cbv zeta.
  destruct (hover_call_alone i evt ms Hmode Hms) as [Hover Hout].
  assert (Hfire : forall st,
    hoverTimer (exec (handleMouse evt) i)
    = Some (mkPending st (relatedTarget evt) debounce_wait) ->
    exec (elapse (debounce_wait - elapsed between)) (run between (exec (handleMouse evt) i))
    = exec (_handleHover st (relatedTarget evt))
        (exec (set_hoverTimer None) (run between (exec (handleMouse evt) i)))).
  { intros st Ht; apply elapse_runs_pending.
    exact (run_keeps_timer between _ st (relatedTarget evt) debounce_wait Hno Ht Hbetween). }
  split; [|split].
  - intros Hst; destruct (Hover Hst) as [Hs [He _]].
    split; [exact Hs | split; [exact He|]].
    rewrite (Hfire over) by (apply handleMouse_schedules; auto).
    apply handleHover_over.
  - intros Hst Hctx; destruct (Hout Hst Hctx) as [Hs [He _]].
    split; [exact Hs | split; [exact He|]].
    rewrite (Hfire out) by (apply handleMouse_schedules; auto).
    set (waiting := run between (exec (handleMouse evt) i)).
    pose proof (hover_shouldPreventClose_spec waiting evt) as Hspec.
    destruct (handleHover_leave (exec (set_hoverTimer None) waiting) out
                (relatedTarget evt)) as [Hkeep Hclose]; [discriminate|].
    assert (Hsame : hover_shouldPreventClose (exec (set_hoverTimer None) waiting)
                      (relatedTarget evt)
                    = hover_shouldPreventClose waiting (relatedTarget evt))
      by (destruct waiting; reflexivity).
    assert (Hstate : state (exec (set_hoverTimer None) waiting) = state waiting)
      by (destruct waiting; reflexivity).
    rewrite Hsame in Hkeep, Hclose; split.
    + intros Hin; apply Hspec in Hin; rewrite (Hkeep Hin); exact Hstate.
    + intros Hnot.
      destruct (hover_shouldPreventClose waiting (relatedTarget evt)) eqn:Hb.
      * exfalso; apply Hnot, Hspec; reflexivity.
      * rewrite <- Hstate; apply Hclose; reflexivity.
  - intros u acts; apply flag_follows_history.
Qed.

Lemma hover_opens_and_closes_after_debounce_witness :
  let enter := mkMouseEvent MouseOver None (Some svg_icon) in
  let leave := mkMouseEvent MouseOut (Some elsewhere) (Some svg_icon) in
  let typing := [KeyDown (mkKeyboardEvent (Some "a") (Some 65%Z)); Elapse 120] in
  State.open (state hover_tooltip) = Some false
  /\ State.open (state (exec (elapse 80) (run typing (exec (handleMouse enter) hover_tooltip))))
     = Some true
  /\ State.open (state (exec (elapse 100) (exec (handleMouse leave) open_hover_tooltip)))
     = Some true
  /\ State.open
       (state (exec (elapse 80) (run typing (exec (handleMouse leave) open_hover_tooltip))))
     = Some false.
Proof.
  cbv zeta.
  assert (Hms : (100 < debounce_wait)%nat) by (unfold debounce_wait; lia).
  assert (Hbetween :
    (elapsed [KeyDown (mkKeyboardEvent (Some "a") (Some 65%Z)); Elapse 120]
     < debounce_wait)%nat) by (unfold debounce_wait; cbn; lia).
  destruct (hover_opens_and_closes_after_debounce hover_tooltip
              (mkMouseEvent MouseOver None (Some svg_icon)) 100
              [KeyDown (mkKeyboardEvent (Some "a") (Some 65%Z)); Elapse 120]
              eq_refl Hms eq_refl Hbetween)
    as [Hover _].
  destruct (hover_opens_and_closes_after_debounce open_hover_tooltip
              (mkMouseEvent MouseOut (Some elsewhere) (Some svg_icon)) 100
              [KeyDown (mkKeyboardEvent (Some "a") (Some 65%Z)); Elapse 120]
              eq_refl Hms eq_refl Hbetween)
    as [_ [Hout _]].
  destruct (Hover eq_refl) as [_ [_ Hopen]].
  destruct (Hout eq_refl eq_refl) as [_ [Hearly [_ Hclose]]].
  split; [reflexivity | split; [exact Hopen | split]].
  - rewrite Hearly; reflexivity.
  - apply Hclose.
    intros [rt [Hrt [[el [Hel [_ Hin]]] | [el [Hel Hin]]]]];
      injection Hrt as <-; injection Hel as <-;
      apply contains_Within in Hin; discriminate Hin.
Defined.

(** ** C7: the [open] prop *)

Lemma derive_prevOpen : forall p s, State.prevOpen (derive p s) = Some (Props.open p).
Proof.
  intros p [o [b|] pos]; unfold derive, getDerivedStateFromProps; cbn.
  - destruct (Bool.eqb b (Props.open p)) eqn:Heq; cbn; [|reflexivity].
    apply eqb_prop in Heq; subst; reflexivity.
  - reflexivity.
Qed.

Lemma mount_tracks : forall u, prevOpen_tracks_prop (mount u).
Proof. intros u; unfold prevOpen_tracks_prop, mount; cbn [props state]; apply derive_prevOpen. Qed.

Lemma step_tracks : forall a i,
  prevOpen_tracks_prop i -> prevOpen_tracks_prop (exec (step a) i).
Proof.
  unfold prevOpen_tracks_prop.
  intros a [p s ctx tip trig tid ttid timer] Hinv; cbn in Hinv.
  destruct a as [evt | evt | evt | ms | | | u | trigger tooltip]; cbn [step].
  - destruct evt as [ty rt tg]; run_handler.
    destruct (Props.clickToOpen p), ty, ctx, trig, s as [[[|]|] prev pos]; cbn in *;
      exact Hinv.
  - unfold exec, handleKeyPress; destruct (is_toggle_key (key_of evt));
      run_handler; exact Hinv.
  - run_handler.
    match goal with |- context [negb ?b] => destruct b end; cbn; exact Hinv.
  - run_handler. destruct timer as [[st rt left]|]; cbn; [|exact Hinv].
    destruct (left <=? ms)%nat; cbn; [|exact Hinv].
    destruct st; cbn; try (destruct trig; cbn; exact Hinv);
      destruct (hover_shouldPreventClose _ rt); cbn; exact Hinv.
  - run_handler; destruct trig; cbn; exact Hinv.
  - run_handler; apply derive_prevOpen.
  - run_handler; apply derive_prevOpen.
  - cbn; exact Hinv.
Qed.

Lemma run_tracks : forall acts i,
  prevOpen_tracks_prop i -> prevOpen_tracks_prop (run acts i).
Proof.
  induction acts as [|a acts IH]; intros i Hinv; cbn.
  - exact Hinv.
  - apply IH, step_tracks, Hinv.
Qed.

(** C7.  At mount [state.open] is the [open] prop, which is [false]
    when the parent leaves it out.  At any later render pass, whatever
    happened in between, [getDerivedStateFromProps] returns [null] exactly
    when the [open] prop equals the one of the previous render, and the
    state is then left as it is; when the prop differs, [state.open]
    becomes the prop.  In particular the pass that follows a handler's
    [setState], with the props unchanged, keeps what the handler set. *)
Theorem open_prop_controls_state : forall u acts p',
  let i := run acts (mount u) in
  State.open (state (mount u)) = Some (Props.or_default false (Props.u_open u))
  /\ (getDerivedStateFromProps p' (state i) = None <-> Props.open p' = Props.open (props i))
  /\ (Props.open p' = Props.open (props i) -> state (exec (rerender p') i) = state i)
  /\ (Props.open p' <> Props.open (props i) ->
      State.open (state (exec (rerender p') i)) = Some (Props.open p'))
  /\ state (exec (step Rerender) i) = state i.
Proof.
  intros u acts p'; cbv zeta.
  pose proof (run_tracks acts (mount u) (mount_tracks u)) as Hinv.
  unfold prevOpen_tracks_prop in Hinv.
  destruct (run acts (mount u)) as [p s ctx tip trig tid ttid timer]; cbn in Hinv.
  split; [reflexivity|].
  assert (Hderive : forall q, Props.open q = Props.open p -> derive q s = s).
  { intros q Hq; unfold derive, getDerivedStateFromProps; cbv zeta.
    rewrite Hinv, Hq, eqb_reflx; reflexivity. }
  cbn [state props]; split; [|split; [|split]].
  - unfold getDerivedStateFromProps; cbv zeta; rewrite Hinv.
    destruct (Bool.eqb (Props.open p) (Props.open p')) eqn:Heq.
    + apply eqb_prop in Heq; split; auto.
    + split; [discriminate|]. intros H; rewrite H, eqb_reflx in Heq; discriminate Heq.
  - intros Heq; run_handler; apply Hderive, Heq.
  - intros Hne; run_handler; unfold derive, getDerivedStateFromProps; cbv zeta.
    rewrite Hinv.
    destruct (Bool.eqb (Props.open p) (Props.open p')) eqn:Heq; [|reflexivity].
    apply eqb_prop in Heq; congruence.
  - run_handler; apply Hderive; reflexivity.
Qed.

Lemma open_prop_controls_state_witness :
  State.open (state hover_tooltip) = Some false
  /\ State.open (state (mount open_props)) = Some true
  /\ State.open (state (exec (rerender (Props.withDefaults no_props)) open_hover_tooltip))
     = Some true
  /\ State.open (state (exec (rerender (Props.withDefaults no_props)) (mount open_props)))
     = Some false.
Proof.
  split; [reflexivity | split; [reflexivity | split]].
  - destruct (open_prop_controls_state no_props
                [ Refs (Some (mkTrigger svg_icon true)) None;
                  Mouse (mkMouseEvent MouseOver None (Some svg_icon));
                  Elapse 200; Rerender;
                  Refs (Some (mkTrigger svg_icon true)) (Some panel_div) ]
                (Props.withDefaults no_props))
      as [_ [_ [Hsame _]]].
    change (run _ (mount no_props)) with open_hover_tooltip in Hsame.
    rewrite (Hsame eq_refl); reflexivity.
  - destruct (open_prop_controls_state open_props [] (Props.withDefaults no_props))
      as [_ [_ [_ [Hdiff _]]]].
    apply Hdiff; discriminate.
Defined.

(** ** C8: which events change the open state *)

Lemma handleMouse_contextmenu : forall i rt tg,
  exec (handleMouse (mkMouseEvent ContextMenu rt tg)) i
  = {| props := props i; state := state i; _hasContextMenu := true;
       _tooltipEl := _tooltipEl i; triggerEl := triggerEl i;
       triggerId := triggerId i; tooltipId := tooltipId i;
       hoverTimer := hoverTimer i |}.
Proof.
  intros [p s ctx tip trig tid ttid timer] rt tg; run_handler.
  destruct (Props.clickToOpen p); reflexivity.
Qed.

(** C8, as stated, fails: no [contextmenu] event changes [state.open]
    when it is handled. *)
Lemma contextmenu_never_changes_open : ~ contextmenu_changes_open.
Proof.
  intros [i [[ty rt tg] [Hty Hne]]]; cbn in Hty; subst ty.
  rewrite handleMouse_contextmenu in Hne; apply Hne; reflexivity.
Qed.

(** C8, amended.  A hover event (once the window has passed), a click in
    click mode, a key press and a click outside each change [state.open]
    on some instance.  A [contextmenu] event changes nothing but the flag
    [_hasContextMenu]: the state, and the timer, stay as they are. *)
Theorem events_that_change_open :
  (exists i evt,
      Props.clickToOpen (props i) = false /\ type evt = MouseOver
      /\ State.open (state (exec (elapse debounce_wait) (exec (handleMouse evt) i)))
         <> State.open (state i))
  /\ (exists i evt,
      Props.clickToOpen (props i) = true /\ type evt = Click
      /\ State.open (state (exec (handleMouse evt) i)) <> State.open (state i))
  /\ (exists i evt,
      State.open (state (exec (handleKeyPress evt) i)) <> State.open (state i))
  /\ (exists i evt,
      State.open (state (exec (handleClickOutside evt) i)) <> State.open (state i))
  /\ (forall i rt tg,
      let i' := exec (handleMouse (mkMouseEvent ContextMenu rt tg)) i in
      state i' = state i /\ hoverTimer i' = hoverTimer i /\ _hasContextMenu i' = true).
Proof.
  split; [|split; [|split; [|split]]].
  - exists hover_tooltip, (mkMouseEvent MouseOver None (Some svg_icon)).
    repeat split; try reflexivity; discriminate.
  - exists click_tooltip, (mkMouseEvent Click None (Some svg_icon)).
    repeat split; try reflexivity; discriminate.
  - exists hover_tooltip, (mkKeyboardEvent (Some " ") (Some 32%Z)); discriminate.
  - exists open_hover_tooltip, (Some (mkMouseEvent Click None (Some elsewhere)));
      discriminate.
  - intros i rt tg; cbv zeta; rewrite handleMouse_contextmenu; repeat split.
Qed.

(** ** C9: the offset of the menu *)

Lemma arrowPosition_not_nan : forall menuBody menuDirection,
  is_nan (arrowPosition menuBody menuDirection) = false.
Proof.
  intros menuBody menuDirection; unfold arrowPosition; cbv zeta.
  destruct (is_nan (parsed_px menuBody (arrow_side menuDirection))) eqn:Hnan;
    cbn [orb]; [reflexivity|].
  destruct (is_zero (parsed_px menuBody (arrow_side menuDirection)));
    [reflexivity | exact Hnan].
Qed.

Lemma values_of_spec : forall menuBody menuDirection,
  MenuOffset.values_of (MenuOffset.before_style menuBody) menuDirection
  = [ (arrow_side menuDirection, arrowPosition menuBody menuDirection);
      ("border-bottom-width"%string, borderBottomWidth menuBody) ].
Proof.
  intros menuBody menuDirection.
  unfold MenuOffset.values_of, arrowPosition, borderBottomWidth, parsed_px, arrow_side,
    MenuOffset.falsy.
  destruct menuDirection; cbn; reflexivity.
Qed.


Example getMenuOffset_bottom :
  MenuOffset.getMenuOffset carbon_arrow DIRECTION_BOTTOM
  = Some {| MenuOffset.left := 0; MenuOffset.top := 0x1.cf876ccdf6cd9p+3 |}.
Proof. vm_compute. reflexivity. Qed.

Example getMenuOffset_right_zero_arrow :
  MenuOffset.getMenuOffset carbon_arrow DIRECTION_RIGHT
  = Some {| MenuOffset.left := 0x1.cf876ccdf6cd9p+3; MenuOffset.top := 0 |}.
Proof. vm_compute. reflexivity. Qed.

Example getMenuOffset_top_missing_arrow :
  MenuOffset.getMenuOffset carbon_arrow DIRECTION_TOP
  = Some {| MenuOffset.left := 0; MenuOffset.top := 0x1.cf876ccdf6cd9p+3 |}.
Proof. vm_compute. reflexivity. Qed.

Example getMenuOffset_no_border :
  MenuOffset.getMenuOffset (MenuOffset.mkMenuBody (fun _ => "auto")) DIRECTION_BOTTOM = None.
Proof. vm_compute. reflexivity. Qed.

(** * Further properties of the component *)

(** ** [closest] and [_getTarget] *)

Lemma closest_loop_some : forall page doc selector chain t,
  closest_loop page doc selector chain = Some t <->
  exists below above,
    chain = below ++ t :: above
    /\ Forall (fun n => node_id n <> node_id doc /\ matches page n selector = false) below
    /\ node_id t <> node_id doc
    /\ matches page t selector = true.
Proof.
  intros page doc selector chain t; induction chain as [|n up IH]; cbn.
  - split; [discriminate|].
    intros [below [above [Hchain _]]]; destruct below; discriminate Hchain.
  - destruct (Nat.eqb (node_id n) (node_id doc)) eqn:Hdoc.
    + apply Nat.eqb_eq in Hdoc; split; [discriminate|].
      intros [[|b below] [above [Hchain [Hbelow [Ht _]]]]];
        injection Hchain as -> _.
      * contradiction.
      * inversion Hbelow as [|? ? [Hb _] _]; contradiction.
    + apply Nat.eqb_neq in Hdoc.
      destruct (matches page n selector) eqn:Hm.
      * split.
        -- intros Heq; injection Heq as <-.
           exists [], up; repeat split; auto.
        -- intros [[|b below] [above [Hchain [Hbelow _]]]];
             injection Hchain as -> _; [reflexivity|].
           inversion Hbelow as [|? ? [_ Hb] _]; congruence.
      * rewrite IH; split.
        -- intros [below [above [-> [Hbelow Hrest]]]].
           exists (n :: below), above; repeat split; try apply Hrest.
           constructor; [split; assumption | exact Hbelow].
        -- intros [[|b below] [above [Hchain [Hbelow [Ht Hmt]]]]];
             injection Hchain as -> Hup.
           ++ congruence.
           ++ exists below, above; inversion Hbelow; subst; auto.
Qed.

(** X1.  [closest] returns a node exactly when that node is the element
    or one of its ancestors, matches the selector and is not the owner
    document, and every node passed on the way up to it neither is the
    document nor matches: the nearest match below the document. *)
Theorem closest_is_nearest_match : forall page elem selector t,
  closest page elem selector = Some t <->
  exists below above,
    elem :: parentChain page elem = below ++ t :: above
    /\ Forall (fun n => node_id n <> node_id (ownerDocument page elem)
                        /\ matches page n selector = false) below
    /\ node_id t <> node_id (ownerDocument page elem)
    /\ matches page t selector = true.
Proof. intros; unfold closest; apply closest_loop_some. Qed.

Lemma closest_loop_none : forall page doc selector chain,
  closest_loop page doc selector chain = None <->
  forall below n above,
    chain = below ++ n :: above ->
    Forall (fun m => node_id m <> node_id doc) (below ++ [n]) ->
    matches page n selector = false.
Proof.
  intros page doc selector chain; split.
  - intros Hnone below n above Hchain Hbelow.
    destruct (matches page n selector) eqn:Hm; [|reflexivity].
    revert chain Hnone Hchain Hbelow.
    induction below as [|b below IH]; intros chain Hnone Hchain Hbelow;
      subst chain; cbn in Hnone; inversion Hbelow as [|? ? Hb Hrest]; subst.
    + apply Nat.eqb_neq in Hb; rewrite Hb, Hm in Hnone; discriminate Hnone.
    + apply Nat.eqb_neq in Hb; rewrite Hb in Hnone.
      destruct (matches page b selector); [discriminate Hnone|].
      exact (IH _ Hnone eq_refl Hrest).
  - induction chain as [|n up IH]; intros Hall; cbn; [reflexivity|].
    destruct (Nat.eqb (node_id n) (node_id doc)) eqn:Hdoc; [reflexivity|].
    apply Nat.eqb_neq in Hdoc.
    rewrite (Hall [] n up eq_refl) by (repeat constructor; exact Hdoc).
    apply IH; intros below m above Hup Hbelow.
    apply (Hall (n :: below) m above); [rewrite Hup; reflexivity|].
    constructor; assumption.
Qed.

(** X2.  [closest] returns [null] exactly when no node from the element
    upwards that is reached before the owner document matches the
    selector; what lies at or above the document is never asked. *)
Theorem closest_null_iff_no_match_below_document : forall page elem selector,
  closest page elem selector = None <->
  forall below n above,
    elem :: parentChain page elem = below ++ n :: above ->
    Forall (fun m => node_id m <> node_id (ownerDocument page elem)) (below ++ [n]) ->
    matches page n selector = false.
Proof. intros; unfold closest; apply closest_loop_none. Qed.

(** X3.  [_getTarget] returns [document.body] when there is no trigger
    element; otherwise it returns [document.body] or a node that is the
    trigger element or one of its ancestors, is not the owner document and
    matches [[data-floating-menu-container]]. *)
Theorem getTarget_is_container_or_body : forall page i,
  (triggerEl i = None -> _getTarget page i = document_body page)
  /\ (_getTarget page i = document_body page
      \/ exists el,
           triggerEl i = Some el
           /\ In (_getTarget page i) (trigger_node el :: parentChain page (trigger_node el))
           /\ node_id (_getTarget page i) <> node_id (ownerDocument page (trigger_node el))
           /\ matches page (_getTarget page i) "[data-floating-menu-container]" = true).
Proof.
  intros page i; unfold _getTarget; split.
  - intros ->; reflexivity.
  - destruct (triggerEl i) as [el|]; [|left; reflexivity].
    destruct (closest page (trigger_node el) "[data-floating-menu-container]")
      as [t|] eqn:Hc; [|left; reflexivity].
    right; exists el; split; [reflexivity|].
    unfold closest in Hc; apply closest_loop_some in Hc.
    destruct Hc as [below [above [Hchain [_ [Hdoc Hm]]]]].
    rewrite Hchain; repeat split; try assumption.
    apply in_or_app; right; left; reflexivity.
Qed.

Lemma getTarget_is_container_or_body_witness :
  _getTarget sample_page hover_tooltip = body_node
  /\ _getTarget sample_page open_hover_tooltip = container_node.
Proof.
  split.
  - exact (proj1 (getTarget_is_container_or_body sample_page hover_tooltip) eq_refl).
  - reflexivity.
Defined.

Lemma closest_loop_without_method : forall page doc selector chain,
  (forall n, method_named (property_key (matchesFuncName page)) (methods page n) = None) ->
  closest_loop page doc selector chain = None.
Proof.
  intros page doc selector chain Hno; induction chain as [|n up IH]; cbn; [reflexivity|].
  unfold matches; rewrite Hno.
  destruct (Nat.eqb (node_id n) (node_id doc)); [reflexivity | exact IH].
Qed.

(** X4.  Where the feature detection finds no method name (there is no
    [Element], or its prototype has none of the three names) and no node
    has a function under the key that the failed detection leaves
    (["false"] or ["undefined"]), [matches] is false everywhere, [closest]
    finds nothing and [_getTarget] is [document.body]. *)
Theorem getTarget_without_matches_support : forall page i,
  (forall name, matchesFuncName page <> fn_name name) ->
  (forall n, method_named "false" (methods page n) = None
             /\ method_named "undefined" (methods page n) = None) ->
  (forall elem selector, matches page elem selector = false)
  /\ (forall elem selector, closest page elem selector = None)
  /\ _getTarget page i = document_body page.
Proof.
  intros page i Hname Hnodes.
  assert (Hno : forall n,
             method_named (property_key (matchesFuncName page)) (methods page n) = None).
  { intros n; destruct (Hnodes n) as [Hf Hu].
    destruct (matchesFuncName page) as [| |name] eqn:Hfn; cbn; try assumption.
    exfalso; exact (Hname name eq_refl). }
  split; [|split].
  - intros elem selector; unfold matches; rewrite Hno; reflexivity.
  - intros elem selector; unfold closest; apply closest_loop_without_method, Hno.
  - unfold _getTarget, closest; destruct (triggerEl i); [|reflexivity].
    rewrite closest_loop_without_method by exact Hno; reflexivity.
Qed.

Lemma getTarget_without_matches_support_witness :
  _getTarget legacy_page open_hover_tooltip = body_node.
Proof.
  refine (proj2 (proj2 (getTarget_without_matches_support legacy_page open_hover_tooltip _ _))).
  - intros name; discriminate.
  - intros n; split; reflexivity.
Defined.

(** ** [render] *)

Lemma attr_in_app : forall name front back,
  attr_in name (front ++ back)
  = match attr_in name back with
    | Some later => Some later
    | None => attr_in name front
    end.
Proof.
  intros name front back; induction front as [|[n v] front IH]; cbn.
  - destruct (attr_in name back); reflexivity.
  - rewrite IH; destruct (attr_in name back); reflexivity.
Qed.

(** X5.  A second [render] gives the same element as the first whatever
    [Math.random] returns, because the ids made by the first are kept on the
    instance; and [render] writes nothing but those two ids. *)
Theorem render_keeps_generated_ids : forall rnd1 rnd2 rnd3 rnd4 i,
  let i1 := exec (render rnd1 rnd2) i in
  rendered rnd3 rnd4 i1 = rendered rnd1 rnd2 i
  /\ exec (render rnd3 rnd4) i1 = i1
  /\ props i1 = props i /\ state i1 = state i
  /\ _hasContextMenu i1 = _hasContextMenu i /\ hoverTimer i1 = hoverTimer i
  /\ _tooltipEl i1 = _tooltipEl i /\ triggerEl i1 = triggerEl i.
Proof.
  intros rnd1 rnd2 rnd3 rnd4 [p s ctx tip trig tid ttid timer]; cbv zeta; run_handler.
  destruct (Props.triggerId p) eqn:Hid, (Props.tooltipId p) eqn:Htid, tid, ttid; cbn;
    repeat (rewrite ?Hid, ?Htid; cbn);
    repeat split; reflexivity.
Qed.

Arguments rest_props : simpl never.

Lemma attr_in_filter_keys : forall (keep : string -> bool) name attrs,
  attr_in name (filter (fun kv => keep (fst kv)) attrs)
  = if keep name then attr_in name attrs else None.
Proof.
  intros keep name attrs; induction attrs as [|[n v] attrs IH]; cbn.
  - destruct (keep name); reflexivity.
  - destruct (String.eqb n name) eqn:Hn.
    + apply String.eqb_eq in Hn; subst n.
      destruct (keep name); cbn; rewrite IH; [rewrite String.eqb_refl|]; reflexivity.
    + destruct (keep n); cbn; rewrite IH, ?Hn; destruct (keep name); try reflexivity.
      destruct (attr_in name attrs); reflexivity.
Qed.

(** The rest props hold the caller's value of every name that [render]
    does not take out, and nothing under a name that it does. *)
Lemma attr_in_rest_props : forall p name,
  attr_in name (rest_props p)
  = if String.eqb name "open"
    then Some (ABool (Props.open p))
    else if is_destructured name then None
    else attr_in name (Props.other p).
Proof.
  intros p name; unfold rest_props.
  pose proof (attr_in_filter_keys
                (fun k => negb (is_destructured k || String.eqb k "open"))
                name (Props.other p)) as Hrest; cbv beta in Hrest.
  cbn [attr_in]; rewrite Hrest, (String.eqb_sym "open" name); clear Hrest.
  destruct (String.eqb name "open"), (is_destructured name); cbn [negb orb];
    try reflexivity; destruct (attr_in name (Props.other p)); reflexivity.
Qed.

Ltac read_attrs :=
  unfold rendered_panel, rendered_trigger, child, attr, fragment_children, hover_listeners;
  cbn; rewrite ?attr_in_app; cbn.

(** X6.  In the output the trigger's [aria-expanded] is [state.open].
    While the tooltip is open the panel's [aria-labelledby] is the trigger's
    [id] and the trigger's [aria-owns] is the panel's [id], unless the
    caller passed an [id] among the extra props; while it is not open there
    is no panel and the trigger has no [aria-owns]. *)
Theorem render_links_trigger_and_panel : forall rnd1 rnd2 i,
  let v := rendered rnd1 rnd2 i in
  let trigger := rendered_trigger (Props.showIcon (props i)) v in
  let panel := rendered_panel v in
  attr "aria-expanded" trigger = Some (attr_of_open (State.open (state i)))
  /\ (State.open (state i) = Some true ->
      (exists id, attr "id" trigger = Some (AStr id)
                  /\ attr "aria-labelledby" panel = Some (AStr id))
      /\ (attr_in "id" (Props.other (props i)) = None ->
          attr "aria-owns" trigger = attr "id" panel
          /\ exists id, attr "id" panel = Some (AStr id)))
  /\ (State.open (state i) <> Some true ->
      panel = VNothing /\ attr "aria-owns" trigger = None).
Proof.
  intros rnd1 rnd2 [p [o prev pos] ctx tip trig tid ttid timer]; cbv zeta; run_handler.
  destruct (Props.triggerId p) eqn:Hid, (Props.tooltipId p) eqn:Htid, tid, ttid,
    (Props.showIcon p), o as [[|]|]; cbn;
    (split; [read_attrs; reflexivity | split]);
    intros Hopen; try discriminate Hopen; try (exfalso; apply Hopen; reflexivity);
    try (split; [reflexivity | read_attrs; reflexivity]);
    (split;
     [ eexists; split; read_attrs; reflexivity
     | intros Hother; read_attrs; rewrite attr_in_rest_props, Hother; cbn;
       split; [reflexivity | eexists; reflexivity] ]).
Qed.

Lemma render_links_trigger_and_panel_witness :
  attr "aria-owns"
    (rendered_trigger true (rendered "k3j2" "x9f0" open_hover_tooltip))
  = Some (AStr "__carbon-tooltip_x9f0")
  /\ attr "id" (rendered_panel (rendered "k3j2" "x9f0" open_hover_tooltip))
     = Some (AStr "__carbon-tooltip_x9f0")
  /\ rendered_panel (rendered "k3j2" "x9f0" hover_tooltip) = VNothing.
Proof.
  destruct (render_links_trigger_and_panel "k3j2" "x9f0" open_hover_tooltip)
    as [_ [Hopen _]].
  destruct (Hopen eq_refl) as [_ Hlink].
  destruct (Hlink eq_refl) as [Howns _].
  destruct (render_links_trigger_and_panel "k3j2" "x9f0" hover_tooltip)
    as [_ [_ Hclosed]].
  split; [|split].
  - exact (eq_trans Howns eq_refl).
  - reflexivity.
  - apply Hclosed; discriminate.
Defined.



(** ** The handlers *)

(** X8.  In hover mode [handleMouse] decides nothing at once: whatever
    the event, it leaves the state, the props and the element refs as they
    are and calls neither [stopPropagation] nor [getTriggerPosition]. *)
Theorem hover_mode_defers_everything : forall i evt,
  Props.clickToOpen (props i) = false ->
  let i' := exec (handleMouse evt) i in
  state i' = state i /\ props i' = props i
  /\ _tooltipEl i' = _tooltipEl i /\ triggerEl i' = triggerEl i
  /\ calls (handleMouse evt) i = [].
Proof.
  intros [p s ctx tip trig tid ttid timer] [ty rt tg] Hmode; cbn in Hmode;
    cbv zeta; run_handler; rewrite Hmode.
  destruct ty, ctx; cbn; repeat split; reflexivity.
Qed.

Lemma hover_mode_defers_everything_witness :
  state (exec (handleMouse (mkMouseEvent Click None (Some svg_icon))) open_hover_tooltip)
  = state open_hover_tooltip
  /\ calls (handleMouse (mkMouseEvent Click None (Some svg_icon))) open_hover_tooltip = [].
Proof.
  destruct (hover_mode_defers_everything open_hover_tooltip
              (mkMouseEvent Click None (Some svg_icon)) eq_refl)
    as [Hstate [_ [_ [_ Hcalls]]]].
  split; [exact Hstate | exact Hcalls].
Defined.

(** X9.  In hover mode a click is handed to the debounced handler like a
    leave, also right after a [contextmenu]: 200ms later the tooltip is
    closed, unless the click's related target is inside the panel or inside
    a trigger that has [contains], in which case the state is untouched. *)
Theorem hover_mode_click_closes : forall i evt,
  Props.clickToOpen (props i) = false ->
  type evt = Click ->
  let i' := exec (elapse debounce_wait) (exec (handleMouse evt) i) in
  (related_seen_inside i evt -> state i' = state i)
  /\ (~ related_seen_inside i evt -> State.open (state i') = Some false).
Proof.
  intros i evt Hmode Hty; cbv zeta.
  pose proof (hover_shouldPreventClose_spec i evt) as Hspec.
  assert (Hlate : (debounce_wait <=? debounce_wait)%nat = true) by apply Nat.leb_refl.
  destruct i as [p s ctx tip trig tid ttid timer]; destruct evt as [ty rt tg];
    cbn in Hmode, Hty, Hspec; subst ty.
  run_handler; rewrite Hmode; cbn; rewrite Hlate; cbn.
  unfold hover_shouldPreventClose in *; cbn [triggerEl _tooltipEl] in *.
  match goal with |- context [negb ?b] => destruct b end; cbn; split; intros Hin;
    try reflexivity;
    exfalso; solve [ apply Hin, Hspec; reflexivity
                   | apply Hspec in Hin; discriminate Hin ].
Qed.

Lemma hover_mode_click_closes_witness :
  State.open
    (state (exec (elapse debounce_wait)
              (exec (handleMouse (mkMouseEvent Click None (Some svg_icon)))
                 after_contextmenu)))
  = Some false.
Proof.
  refine (proj2 (hover_mode_click_closes after_contextmenu
                   (mkMouseEvent Click None (Some svg_icon)) eq_refl eq_refl) _).
  intros [rt [Hrt _]]; discriminate Hrt.
Defined.

(** X10.  In hover mode a hover call that is followed by another one
    within 200ms never runs: after the second event the state is still
    the one from before the first, and the timer holds the second call
    only, with the full wait ahead. *)
Theorem superseded_hover_call_never_runs : forall i e1 e2 s1 s2 ms,
  Props.clickToOpen (props i) = false ->
  _hasContextMenu i = false ->
  hover_state_of (type e1) = Some s1 ->
  hover_state_of (type e2) = Some s2 ->
  (ms < debounce_wait)%nat ->
  let i' := exec (handleMouse e2) (exec (elapse ms) (exec (handleMouse e1) i)) in
  state i' = state i
  /\ hoverTimer i' = Some (mkPending s2 (relatedTarget e2) debounce_wait).
Proof.
  intros [p s ctx tip trig tid ttid timer] [ty1 rt1 tg1] [ty2 rt2 tg2] s1 s2 ms
    Hmode Hctx Hs1 Hs2 Hms; cbn in Hmode, Hctx, Hs1, Hs2; subst ctx; cbv zeta.
  assert (Hearly : (debounce_wait <=? ms)%nat = false) by (apply Nat.leb_gt; exact Hms).
  run_handler; rewrite Hmode; cbn.
  destruct ty1; try discriminate Hs1; cbn; rewrite Hearly; cbn;
    repeat (rewrite Hmode; cbn);
    (destruct ty2; try discriminate Hs2; cbn in Hs2 |- *; injection Hs2 as <-;
     split; reflexivity).
Qed.

Lemma superseded_hover_call_never_runs_witness :
  let leave := mkMouseEvent MouseOut (Some elsewhere) (Some svg_icon) in
  let enter := mkMouseEvent MouseOver None (Some panel_div) in
  State.open (state (exec (handleMouse enter)
                       (exec (elapse 150) (exec (handleMouse leave) open_hover_tooltip))))
  = Some true
  /\ hoverTimer (exec (handleMouse enter)
                   (exec (elapse 150) (exec (handleMouse leave) open_hover_tooltip)))
     = Some (mkPending over None 200).
Proof.
  cbv zeta.
  assert (Hms : (150 < debounce_wait)%nat) by (unfold debounce_wait; lia).
  destruct (superseded_hover_call_never_runs open_hover_tooltip
              (mkMouseEvent MouseOut (Some elsewhere) (Some svg_icon))
              (mkMouseEvent MouseOver None (Some panel_div))
              out over 150 eq_refl eq_refl eq_refl eq_refl Hms)
    as [Hstate Htimer].
  split; [rewrite Hstate; reflexivity | exact Htimer].
Defined.

(** X11.  Waiting in two steps is waiting once for the sum: the pending
    call runs in the step in which its 200ms are used up, and only once. *)
Theorem elapse_adds_up : forall i a b,
  exec (elapse b) (exec (elapse a) i) = exec (elapse (a + b)) i.
Proof.
  intros [p s ctx tip trig tid ttid [[st rt left]|]] a b; run_handler; [|reflexivity].
  destruct (left <=? a)%nat eqn:Ha; cbn.
  - assert (Hab : (left <=? a + b)%nat = true)
      by (apply Nat.leb_le; apply Nat.leb_le in Ha; lia).
    rewrite Hab.
    destruct st; cbn; try destruct trig; cbn; try reflexivity;
      match goal with |- context [negb ?c] => destruct c end; reflexivity.
  - apply Nat.leb_gt in Ha.
    destruct (left - a <=? b)%nat eqn:Hb.
    + assert (Hab : (left <=? a + b)%nat = true)
        by (apply Nat.leb_le; apply Nat.leb_le in Hb; lia).
      rewrite Hab; cbn; reflexivity.
    + assert (Hab : (left <=? a + b)%nat = false)
        by (apply Nat.leb_gt; apply Nat.leb_gt in Hb; lia).
      rewrite Hab; cbn.
      replace (left - a - b)%nat with (left - (a + b))%nat by lia; reflexivity.
Qed.

(** X12.  Two toggles bring the tooltip back: after two clicks in click
    mode, or after two presses of a toggle key in any mode, [state.open]
    is the boolean it stood for before ([undefined] counting as [false]). *)
Theorem toggling_twice_restores_open : forall i,
  let before := Some (State.truthy (State.open (state i))) in
  (forall c1 c2,
      Props.clickToOpen (props i) = true -> type c1 = Click -> type c2 = Click ->
      State.open (state (exec (handleMouse c2) (exec (handleMouse c1) i))) = before)
  /\ (forall k1 k2,
      is_toggle_key (key_of k1) = true -> is_toggle_key (key_of k2) = true ->
      State.open (state (exec (handleKeyPress k2) (exec (handleKeyPress k1) i))) = before).
Proof.
  intros [p [o prev pos] ctx tip trig tid ttid timer]; cbv zeta; split.
  - intros [ty1 rt1 tg1] [ty2 rt2 tg2] Hmode Hc1 Hc2; cbn in Hmode, Hc1, Hc2; subst.
    run_handler; rewrite Hmode; cbn.
    destruct o as [[|]|], trig; cbn; repeat (rewrite Hmode; cbn); reflexivity.
  - intros k1 k2 Hk1 Hk2; unfold exec, handleKeyPress; rewrite Hk1, Hk2.
    run_handler; destruct o as [[|]|]; reflexivity.
Qed.

Lemma toggling_twice_restores_open_witness :
  State.open (state (exec (handleMouse (mkMouseEvent Click None (Some svg_icon)))
                       (exec (handleMouse (mkMouseEvent Click None (Some svg_icon)))
                          click_tooltip)))
  = Some false
  /\ State.open (state (exec (handleKeyPress (mkKeyboardEvent (Some " ") None))
                          (exec (handleKeyPress (mkKeyboardEvent None (Some 13%Z)))
                             open_hover_tooltip)))
     = Some true.
Proof.
  split.
  - exact (proj1 (toggling_twice_restores_open click_tooltip)
             (mkMouseEvent Click None (Some svg_icon))
             (mkMouseEvent Click None (Some svg_icon)) eq_refl eq_refl eq_refl).
  - exact (proj2 (toggling_twice_restores_open open_hover_tooltip)
             (mkKeyboardEvent None (Some 13%Z))
             (mkKeyboardEvent (Some " ") None) eq_refl eq_refl).
Defined.

(** X13.  Opening by a click in click mode, or by a hover call that
    runs, stores the trigger's current bounding rectangle in
    [state.triggerPosition] when there is a trigger element; a key press
    never calls [getTriggerPosition] and leaves [state.triggerPosition] as
    it was, also when it opens the tooltip. *)
Theorem position_refreshed_on_open_except_by_key : forall i el,
  triggerEl i = Some el ->
  let measured := Some (getBoundingClientRect (trigger_node el)) in
  (forall evt,
      Props.clickToOpen (props i) = true -> type evt = Click ->
      State.truthy (State.open (state i)) = false ->
      State.triggerPosition (state (exec (handleMouse evt) i)) = measured)
  /\ (forall evt,
      Props.clickToOpen (props i) = false -> hover_state_of (type evt) = Some over ->
      State.triggerPosition
        (state (exec (elapse debounce_wait) (exec (handleMouse evt) i))) = measured)
  /\ (forall evt,
      State.triggerPosition (state (exec (handleKeyPress evt) i))
      = State.triggerPosition (state i)
      /\ ~ In getTriggerPosition_called (calls (handleKeyPress evt) i)).
Proof.
  intros [p [o prev pos] ctx tip trig tid ttid timer] el Hel; cbn in Hel; subst trig;
    cbv zeta.
  assert (Hlate : (debounce_wait <=? debounce_wait)%nat = true) by apply Nat.leb_refl.
  split; [|split].
  - intros [ty rt tg] Hmode Hty Hclosed; cbn in Hmode, Hty, Hclosed; subst ty.
    run_handler; rewrite Hmode; cbn; rewrite Hclosed; reflexivity.
  - intros [ty rt tg] Hmode Hover; cbn in Hmode, Hover.
    run_handler; rewrite Hmode; cbn.
    destruct ty; try discriminate Hover; cbn; rewrite Hlate; reflexivity.
  - intros evt; unfold exec, calls, handleKeyPress.
    destruct (is_toggle_key (key_of evt)); run_handler; split; try reflexivity;
      intros H; try destruct H as [H|H]; try discriminate H; contradiction.
Qed.

Lemma position_refreshed_on_open_except_by_key_witness :
  let with_icon := exec (set_refs (Some (mkTrigger svg_icon true)) None) click_tooltip in
  State.triggerPosition
    (state (exec (handleMouse (mkMouseEvent Click None (Some svg_icon))) with_icon))
  = Some (mkRect 10 20 16 16)
  /\ State.triggerPosition
       (state (exec (handleKeyPress (mkKeyboardEvent (Some "Enter") None)) with_icon))
     = None.
Proof.
  cbv zeta.
  destruct (position_refreshed_on_open_except_by_key
              (exec (set_refs (Some (mkTrigger svg_icon true)) None) click_tooltip)
              (mkTrigger svg_icon true) eq_refl)
    as [Hclick [_ Hkey]].
  split.
  - exact (Hclick (mkMouseEvent Click None (Some svg_icon)) eq_refl eq_refl eq_refl).
  - exact (proj1 (Hkey (mkKeyboardEvent (Some "Enter") None))).
Defined.

(** X14.  What decides a key press, read off the event: a non-empty
    [evt.key] decides alone, toggling exactly for ['Enter'] and [' ']
    whatever [evt.which] is; when [evt.key] is missing or empty,
    [evt.which] decides, toggling exactly for [13] and [32]. *)
Theorem key_precedes_which : forall k w,
  (k <> "" ->
     is_toggle_key (key_of (mkKeyboardEvent (Some k) w)) = true
     <-> k = "Enter" \/ k = " ")
  /\ (is_toggle_key (key_of (mkKeyboardEvent None w)) = true
      <-> w = Some 13%Z \/ w = Some 32%Z)
  /\ key_of (mkKeyboardEvent (Some "") w) = key_of (mkKeyboardEvent None w).
Proof.
  intros k w; split; [|split].
  - intros Hk; destruct k as [|c k]; [contradiction|].
    change (key_of (mkKeyboardEvent (Some (String c k)) w)) with (KString (String c k)).
    unfold is_toggle_key; rewrite orb_true_iff, !String.eqb_eq; reflexivity.
  - destruct w as [n|]; unfold key_of, is_toggle_key; cbn [key which].
    + rewrite orb_true_iff, !Z.eqb_eq; split.
      * intros [->| ->]; auto.
      * intros [H|H]; injection H as ->; auto.
    + split; [discriminate | intros [H|H]; discriminate H].
  - reflexivity.
Qed.

Lemma key_precedes_which_witness :
  is_toggle_key (key_of (mkKeyboardEvent (Some "Enter") (Some 65%Z))) = true.
Proof.
  apply (proj1 (key_precedes_which "Enter" (Some 65%Z))).
  - discriminate.
  - left; reflexivity.
Defined.

(** ** Instances reached from mount *)

Lemma run_preserves : forall (P : Instance -> Prop),
  (forall a i, P i -> P (exec (step a) i)) ->
  forall acts i, P i -> P (run acts i).
Proof.
  intros P Hstep acts; induction acts as [|a acts IH]; intros i Hi; cbn.
  - exact Hi.
  - apply IH, Hstep, Hi.
Qed.

Lemma derive_open_is_boolean : forall p s,
  (exists b, State.open s = Some b) -> exists b, State.open (derive p s) = Some b.
Proof.
  intros p [o prev pos] [b Hb]; cbn in Hb; subst o.
  unfold derive, getDerivedStateFromProps; cbn.
  destruct prev as [c|]; [destruct (Bool.eqb c (Props.open p))|]; cbn; eauto.
Qed.

Lemma step_open_is_boolean : forall a i,
  open_is_boolean i -> open_is_boolean (exec (step a) i).
Proof.
  unfold open_is_boolean.
  intros a [p s ctx tip trig tid ttid timer] Hb; cbn in Hb.
  destruct a as [evt | evt | evt | ms | | | u | trigger tooltip]; cbn [step].
  - destruct evt as [ty rt tg]; run_handler.
    destruct (Props.clickToOpen p), ty, ctx, trig, s as [[[|]|] prev pos]; cbn in *;
      eauto.
  - unfold exec, handleKeyPress; destruct (is_toggle_key (key_of evt));
      run_handler; eauto.
  - run_handler.
    match goal with |- context [negb ?b] => destruct b end; cbn; eauto.
  - run_handler. destruct timer as [[st rt left]|]; cbn; [|exact Hb].
    destruct (left <=? ms)%nat; cbn; [|exact Hb].
    destruct st; cbn; try (destruct trig; cbn; eauto);
      destruct (hover_shouldPreventClose _ rt); cbn; eauto.
  - run_handler; destruct trig; cbn; exact Hb.
  - run_handler; apply derive_open_is_boolean, Hb.
  - run_handler; apply derive_open_is_boolean, Hb.
  - cbn; exact Hb.
Qed.

(** X15.  From the first render on, whatever events, timers, ref
    updates and render passes follow, [state.open] is [true] or [false] and
    never [undefined], so [aria-expanded] always gets a boolean. *)
Theorem open_is_never_undefined : forall u acts rnd1 rnd2,
  let i := run acts (mount u) in
  exists b,
    State.open (state i) = Some b
    /\ attr "aria-expanded"
         (rendered_trigger (Props.showIcon (props i)) (rendered rnd1 rnd2 i))
       = Some (ABool b).
Proof.
  intros u acts rnd1 rnd2; cbv zeta.
  assert (Hb : open_is_boolean (run acts (mount u))).
  { apply run_preserves; [exact step_open_is_boolean|].
    unfold open_is_boolean, mount; cbn; eauto. }
  destruct Hb as [b Hb]; exists b; split; [exact Hb|].
  destruct (run acts (mount u)) as [p [o prev pos] ctx tip trig tid ttid timer];
    cbn in Hb; subst o; run_handler.
  destruct (Props.triggerId p), (Props.tooltipId p), tid, ttid, (Props.showIcon p), b;
    read_attrs; reflexivity.
Qed.

Lemma step_timer_within_wait : forall a i,
  timer_within_wait i -> timer_within_wait (exec (step a) i).
Proof.
  unfold timer_within_wait.
  intros a [p s ctx tip trig tid ttid timer] Ht; cbn in Ht.
  assert (Hfull : (0 < debounce_wait <= debounce_wait)%nat)
    by (unfold debounce_wait; lia).
  destruct a as [evt | evt | evt | ms | | | u | trigger tooltip]; cbn [step].
  - destruct evt as [ty rt tg]; run_handler.
    destruct (Props.clickToOpen p), ty, ctx, trig, s as [[[|]|] prev pos]; cbn in *;
      assumption.
  - unfold exec, handleKeyPress; destruct (is_toggle_key (key_of evt));
      run_handler; exact Ht.
  - run_handler.
    match goal with |- context [negb ?b] => destruct b end; cbn; exact Ht.
  - run_handler. destruct timer as [[st rt left]|]; cbn in *; [|exact I].
    destruct (left <=? ms)%nat eqn:Hms; cbn.
    + destruct st; cbn; try (destruct trig; cbn; exact I);
        destruct (hover_shouldPreventClose _ rt); cbn; exact I.
    + apply Nat.leb_gt in Hms; lia.
  - run_handler; destruct trig; cbn; exact Ht.
  - run_handler; exact Ht.
  - run_handler; exact Ht.
  - cbn; exact Ht.
Qed.

(** X16.  No hover call stays pending for more than the wait: on every
    instance reached from mount, 200ms (or more) without an event leave no
    timer behind. *)
Theorem pending_call_runs_within_wait : forall u acts more,
  hoverTimer (exec (elapse (debounce_wait + more)) (run acts (mount u))) = None.
Proof.
  intros u acts more.
  assert (Ht : timer_within_wait (run acts (mount u)))
    by (apply run_preserves; [exact step_timer_within_wait | exact I]).
  unfold timer_within_wait in Ht.
  destruct (run acts (mount u)) as [p s ctx tip trig tid ttid [[st rt left]|]];
    cbn in Ht; run_handler; [|reflexivity].
  assert (Hdue : (left <=? debounce_wait + more)%nat = true)
    by (apply Nat.leb_le; lia).
  rewrite Hdue; cbn.
  destruct st; cbn; try (destruct trig; reflexivity);
    destruct (hover_shouldPreventClose _ rt); reflexivity.
Qed.

(** X17.  A tooltip that is mounted in click mode and never given props
    without [clickToOpen] never starts the hover timer, whatever events it
    receives. *)
Theorem click_mode_never_starts_timer : forall u acts,
  Props.u_clickToOpen u = true ->
  forallb keeps_click_mode acts = true ->
  hoverTimer (run acts (mount u)) = None
  /\ Props.clickToOpen (props (run acts (mount u))) = true.
Proof.
  intros u acts Hu Hacts.
  assert (Hgen : forall acts i,
             forallb keeps_click_mode acts = true ->
             hoverTimer i = None /\ Props.clickToOpen (props i) = true ->
             hoverTimer (run acts i) = None
             /\ Props.clickToOpen (props (run acts i)) = true).
  { clear; induction acts as [|a acts IH]; intros i Hacts Hi; cbn; [exact Hi|].
    cbn in Hacts; apply andb_true_iff in Hacts; destruct Hacts as [Ha Hacts].
    apply IH; [exact Hacts|].
    destruct i as [p s ctx tip trig tid ttid timer]; cbn in Hi;
      destruct Hi as [-> Hmode].
    destruct a as [evt | evt | evt | ms | | | u | trigger tooltip]; cbn [step].
    - destruct evt as [ty rt tg]; run_handler; rewrite Hmode.
      destruct ty, trig, s as [[[|]|] prev pos]; cbn; auto.
    - unfold exec, handleKeyPress; destruct (is_toggle_key (key_of evt));
        run_handler; auto.
    - run_handler.
      match goal with |- context [negb ?b] => destruct b end; cbn; auto.
    - run_handler; auto.
    - run_handler; destruct trig; cbn; auto.
    - run_handler; auto.
    - run_handler; cbn in Ha; auto.
    - cbn; auto. }
  apply Hgen; [exact Hacts | split; [reflexivity | exact Hu]].
Qed.

Lemma click_mode_never_starts_timer_witness :
  hoverTimer
    (run [ Mouse (mkMouseEvent MouseOver None (Some svg_icon));
           Mouse (mkMouseEvent Click None (Some svg_icon));
           NewProps click_props;
           Mouse (mkMouseEvent MouseOut (Some elsewhere) (Some svg_icon)) ]
       (mount click_props))
  = None.
Proof.
  exact (proj1 (click_mode_never_starts_timer click_props
                  [ Mouse (mkMouseEvent MouseOver None (Some svg_icon));
                    Mouse (mkMouseEvent Click None (Some svg_icon));
                    NewProps click_props;
                    Mouse (mkMouseEvent MouseOut (Some elsewhere) (Some svg_icon)) ]
                  eq_refl eq_refl)).
Defined.

(** ** The pieces of [getMenuOffset] *)

(** X18.  What the pattern [/^([\d-]+)px$/] accepts: a string is taken
    apart exactly when it is a non-empty run of digits and hyphens followed
    by [px] and nothing else, and what is captured is that run. *)
Theorem before_px_is_the_pattern : forall s body,
  MenuOffset.before_px s = Some body <->
  s = (body ++ "px")%string
  /\ body <> ""
  /\ (forall c rest tail_, body = (rest ++ String c tail_)%string ->
                           MenuOffset.is_digit_or_hyphen c = true).
Proof.
  induction s as [|c s IH]; intros body.
  - cbn; split; [discriminate|].
    intros [Hs _]; destruct body; discriminate Hs.
  - cbn [MenuOffset.before_px].
    destruct (String.eqb s "px") eqn:Hpx.
    + apply String.eqb_eq in Hpx; subst s.
      destruct (MenuOffset.is_digit_or_hyphen c) eqn:Hc; split.
      * intros H; injection H as <-; repeat split; [discriminate|].
        intros c' [|x rest] tail_ Hb; cbn in Hb.
        -- injection Hb as <- _; exact Hc.
        -- injection Hb as _ Hb; destruct rest; discriminate Hb.
      * intros [Hs [Hne _]]; destruct body as [|b body]; [contradiction|].
        cbn in Hs; injection Hs as <- Hs.
        destruct body as [|b2 body]; [reflexivity|].
        cbn in Hs; injection Hs as _ Hs.
        destruct body as [|b3 body]; [discriminate Hs|].
        cbn in Hs; injection Hs as _ Hs; destruct body; discriminate Hs.
      * discriminate.
      * intros [Hs [Hne Hall]]; destruct body as [|b body]; [contradiction|].
        cbn in Hs; injection Hs as <- Hs.
        rewrite (Hall c "" body eq_refl) in Hc; discriminate Hc.
    + apply String.eqb_neq in Hpx.
      destruct (MenuOffset.is_digit_or_hyphen c) eqn:Hc.
      * destruct (MenuOffset.before_px s) as [inner|] eqn:Hinner; split.
        -- intros H; injection H as <-.
           destruct (proj1 (IH inner) eq_refl) as [-> [Hne Hall]].
           repeat split; [discriminate|].
           intros c' [|x rest] tail_ Hb; cbn in Hb.
           ++ injection Hb as <- _; exact Hc.
           ++ injection Hb as _ Hb; exact (Hall c' rest tail_ Hb).
        -- intros [Hs [Hne Hall]]; destruct body as [|b body]; [contradiction|].
           cbn in Hs; injection Hs as <- Hs.
           assert (Hin : Some inner = Some body).
           { apply IH; repeat split; [exact Hs | | ].
             - intros ->; apply Hpx; exact Hs.
             - intros c' rest tail_ Hb.
               apply (Hall c' (String c rest) tail_); cbn; rewrite Hb; reflexivity. }
           injection Hin as ->; reflexivity.
        -- discriminate.
        -- intros [Hs [Hne Hall]]; destruct body as [|b body]; [contradiction|].
           cbn in Hs; injection Hs as <- Hs.
           assert (Hin : None = Some body); [|discriminate Hin].
           apply IH; repeat split; [exact Hs | | ].
           ++ intros ->; apply Hpx; exact Hs.
           ++ intros c' rest tail_ Hb.
              apply (Hall c' (String c rest) tail_); cbn; rewrite Hb; reflexivity.
      * split; [discriminate|].
        intros [Hs [Hne Hall]]; destruct body as [|b body]; [contradiction|].
        cbn in Hs; injection Hs as <- Hs.
        rewrite (Hall c "" body eq_refl) in Hc; discriminate Hc.
Qed.

(** X19.  [getMenuOffset] reads two properties of the style and no
    other: two menu bodies whose [::before] styles agree on the arrow's
    side for the direction and on [border-bottom-width] get the same
    offset. *)
Theorem getMenuOffset_reads_two_properties : forall body1 body2 menuDirection,
  MenuOffset.before_style body1 (MenuOffset.arrowPositionProp menuDirection)
  = MenuOffset.before_style body2 (MenuOffset.arrowPositionProp menuDirection) ->
  MenuOffset.before_style body1 "border-bottom-width"
  = MenuOffset.before_style body2 "border-bottom-width" ->
  MenuOffset.getMenuOffset body1 menuDirection
  = MenuOffset.getMenuOffset body2 menuDirection.
Proof.
  intros body1 body2 menuDirection Harrow Hwidth.
  unfold MenuOffset.getMenuOffset, MenuOffset.getComputedStyle_before.
  rewrite !values_of_spec.
  assert (Ha : arrowPosition body1 menuDirection = arrowPosition body2 menuDirection).
  { unfold arrowPosition, parsed_px.
    replace (arrow_side menuDirection) with (MenuOffset.arrowPositionProp menuDirection)
      by (destruct menuDirection; reflexivity).
    rewrite Harrow; reflexivity. }
  assert (Hb : borderBottomWidth body1 = borderBottomWidth body2)
    by (unfold borderBottomWidth, parsed_px; rewrite Hwidth; reflexivity).
  rewrite Ha, Hb; reflexivity.
Qed.

Lemma getMenuOffset_reads_two_properties_witness :
  MenuOffset.getMenuOffset
    (MenuOffset.mkMenuBody
       (fun name => if String.eqb name "border-bottom-width" then "6px" else "-6px"))
    DIRECTION_BOTTOM
  = MenuOffset.getMenuOffset carbon_arrow DIRECTION_BOTTOM.
Proof.
  exact (getMenuOffset_reads_two_properties
           (MenuOffset.mkMenuBody
              (fun name => if String.eqb name "border-bottom-width" then "6px" else "-6px"))
           carbon_arrow DIRECTION_BOTTOM eq_refl eq_refl).
Defined.

(** X20.  When [border-bottom-width] is not a run of digits and hyphens
    followed by [px] (a fraction such as [1.5px], a keyword, the empty
    string), [getMenuOffset] returns [undefined] for every direction,
    whatever the arrow's position is. *)
Theorem getMenuOffset_needs_whole_pixels : forall menuBody menuDirection,
  MenuOffset.before_px (MenuOffset.before_style menuBody "border-bottom-width") = None ->
  MenuOffset.getMenuOffset menuBody menuDirection = None.
Proof.
  intros menuBody menuDirection Hwidth.
  unfold MenuOffset.getMenuOffset, MenuOffset.getComputedStyle_before.
  rewrite values_of_spec.
  assert (Hnan : is_nan (borderBottomWidth menuBody) = true)
    by (unfold borderBottomWidth, parsed_px; rewrite Hwidth; reflexivity).
  cbn [forallb snd]; rewrite Hnan, arrowPosition_not_nan; reflexivity.
Qed.

Lemma getMenuOffset_needs_whole_pixels_witness :
  MenuOffset.getMenuOffset
    (MenuOffset.mkMenuBody
       (fun name => if String.eqb name "border-bottom-width" then "1.5px" else "-6px"))
    DIRECTION_LEFT
  = None.
Proof.
  exact (getMenuOffset_needs_whole_pixels
           (MenuOffset.mkMenuBody
              (fun name => if String.eqb name "border-bottom-width" then "1.5px" else "-6px"))
           DIRECTION_LEFT eq_refl).
Defined.

(** ** The elements a deferred leave looks at *)

(** X21.  A deferred leave asks the elements the instance holds when
    the call runs, not those it held when the event came: if the refs
    change in between (the panel is mounted or unmounted, say), the close
    is prevented exactly when the related target is inside the new panel
    element or inside the new trigger element, given it has [contains]. *)
Theorem leave_asks_current_elements : forall i evt trigger tooltip,
  Props.clickToOpen (props i) = false ->
  _hasContextMenu i = false ->
  hover_state_of (type evt) = Some out ->
  let waiting := exec (set_refs trigger tooltip) (exec (handleMouse evt) i) in
  let i' := exec (elapse debounce_wait) waiting in
  (related_seen_inside waiting evt -> state i' = state i)
  /\ (~ related_seen_inside waiting evt -> State.open (state i') = Some false).
Proof.
  intros i evt trigger tooltip Hmode Hctx Hout; cbv zeta.
  pose proof (hover_shouldPreventClose_spec
                (exec (set_refs trigger tooltip) (exec (handleMouse evt) i)) evt) as Hspec.
  assert (Hlate : (debounce_wait <=? debounce_wait)%nat = true) by apply Nat.leb_refl.
  destruct i as [p s ctx tip trig tid ttid timer]; destruct evt as [ty rt tg];
    cbn in Hmode, Hctx, Hout; subst ctx.
  assert (Hty : ty = MouseOut \/ ty = Blur)
    by (destruct ty; try discriminate Hout; auto).
  destruct Hty; subst ty; unfold set_refs in *; run_handler;
    rewrite Hmode in *; cbn in *; rewrite Hlate; cbn;
    unfold hover_shouldPreventClose in *; cbn [triggerEl _tooltipEl] in *;
    match goal with |- context [negb ?b] => destruct b end; cbn; split; intros Hin;
    try reflexivity;
    exfalso; solve [ apply Hin, Hspec; reflexivity
                   | apply Hspec in Hin; discriminate Hin ].
Qed.

Lemma leave_asks_current_elements_witness :
  let leave := mkMouseEvent MouseOut (Some (MkNode 6 (mkRect 40 20 10 10) [])) (Some svg_icon) in
  State.open
    (state (exec (elapse debounce_wait)
              (exec (set_refs (Some (mkTrigger svg_icon true)) None)
                 (exec (handleMouse leave) open_hover_tooltip))))
  = Some false
  /\ State.open
       (state (exec (elapse debounce_wait) (exec (handleMouse leave) open_hover_tooltip)))
     = Some true.
Proof.
  cbv zeta; split; [|reflexivity].
  refine (proj2 (leave_asks_current_elements open_hover_tooltip
                   (mkMouseEvent MouseOut (Some (MkNode 6 (mkRect 40 20 10 10) []))
                      (Some svg_icon))
                   (Some (mkTrigger svg_icon true)) None eq_refl eq_refl eq_refl) _).
  intros [rt [Hrt [[el [Hel [_ Hin]]] | [el [Hel _]]]]].
  - injection Hrt as <-; injection Hel as <-.
    apply contains_Within in Hin; discriminate Hin.
  - discriminate Hel.
Defined.
